(** * Verification of the release-notes dashboard backend

    Shallow embedding of the TypeScript backend of the GCP release-notes
    dashboard: the JavaScript string primitives it relies on, the markdown
    parser of [GeminiService], the model-fallback logic of
    [GeminiService.generateSummary], the model-name validation of the
    configuration module, the date-range computation of
    [BigQueryService.getDateRange], the request handler
    [ReleaseNotesController.getReleaseNotes] and the Firestore visitor
    counter. *)

From Stdlib Require Import ZArith Lia List Bool Ascii String.
From Stdlib Require Import Numbers.DecimalString.
From Stdlib Require Import Sorting.Permutation.
Import ListNotations.
Open Scope string_scope.

(* ================================================================= *)
(** ** JavaScript string primitives *)

Module JsString.

(** [strip_prefix sep s] is [Some rest] when [s = sep ++ rest]. *)
Fixpoint strip_prefix (sep s : string) : option string :=
  match sep, s with
  | EmptyString, _ => Some s
  | String a sep', String b s' =>
      if Ascii.eqb a b then strip_prefix sep' s' else None
  | String _ _, EmptyString => None
  end.

(** First occurrence of [sep] in [s]: the text before it and the text
    after it (the left-to-right search of [String.prototype.split]). *)
Fixpoint break_at (sep s : string) : option (string * string) :=
  match strip_prefix sep s with
  | Some rest => Some (EmptyString, rest)
  | None =>
      match s with
      | EmptyString => None
      | String c s' =>
          match break_at sep s' with
          | Some (before, after) => Some (String c before, after)
          | None => None
          end
      end
  end.

(** [split_fuel]: the loop of [String.prototype.split] for a non-empty
    separator; every round consumes at least one character, so
    [length s + 1] rounds are always enough. *)
Fixpoint split_fuel (fuel : nat) (sep s : string) : list string :=
  match fuel with
  | O => [s]
  | S fuel' =>
      match break_at sep s with
      | None => [s]
      | Some (before, after) => before :: split_fuel fuel' sep after
      end
  end.

(** [s.split(sep)] for the non-empty literal separators of the code. *)
Definition split (s sep : string) : list string :=
  split_fuel (S (length s)) sep s.

(** [s.includes(sub)], [s.startsWith(p)] *)
Definition includes (s sub : string) : bool :=
  match index 0 sub s with Some _ => true | None => false end.

Definition startsWith (s p : string) : bool := prefix p s.

(** White space removed by [String.prototype.trim], on 8-bit code units:
    TAB, LF, VT, FF, CR, SPACE and NO-BREAK SPACE. *)
Definition is_js_space (c : ascii) : bool :=
  let n := nat_of_ascii c in
  ((9 <=? n) && (n <=? 13))%nat || (n =? 32)%nat || (n =? 160)%nat.

Fixpoint trim_start (s : string) : string :=
  match s with
  | EmptyString => EmptyString
  | String c s' => if is_js_space c then trim_start s' else s
  end.

Definition rev_string (s : string) : string :=
  string_of_list_ascii (List.rev (list_ascii_of_string s)).

Definition trim_end (s : string) : string :=
  rev_string (trim_start (rev_string s)).

Definition trim (s : string) : string := trim_end (trim_start s).

(** A template-literal interpolation [`${x}`] of an array element that
    may be missing: a missing element prints as ["undefined"]. *)
Definition interp (x : option string) : string :=
  match x with Some s => s | None => "undefined" end.

(** JavaScript truthiness of a string. *)
Definition truthy (s : string) : bool :=
  match s with EmptyString => false | _ => true end.

(** The first element of a split: the text before the first separator. *)
Definition first_piece (sep s : string) : string :=
  match break_at sep s with
  | None => s
  | Some (before, _) => before
  end.

(** No character of [p] is [c]. *)
Definition avoids (c : ascii) (p : string) : bool :=
  forallb (fun x => negb (Ascii.eqb x c)) (list_ascii_of_string p).

End JsString.

Import JsString.

(* ================================================================= *)
(** ** [GeminiService]: parsing the model's markdown reply *)

Module Parser.

Definition NL : string := String (ascii_of_nat 10) EmptyString.

Definition industry_heading : string := "## Industry Use Cases".

(** [line => line.trim().startsWith('|') && !line.includes('---')] *)
Definition isTableRow (line : string) : bool :=
  startsWith (trim line) "|" && negb (includes line "---").

(** [line => { const [, industry, useCase] =
              line.split('|').map(cell => cell.trim());
              return `${industry}: ${useCase}`; }] *)
Definition useCaseEntry (line : string) : string :=
  let cells := map trim (split line "|") in
  interp (nth_error cells 1) ++ ": " ++ interp (nth_error cells 2).

(** [GeminiService.extractIndustryUseCases] *)
Definition extractIndustryUseCases (markdown : string) : list string :=
  let useCasesSection :=
    match nth_error (split markdown industry_heading) 1 with
    | None => None
    | Some after => nth_error (split after "##") 0
    end in
  match useCasesSection with
  | None => []
  | Some sec =>
      if negb (truthy sec) then []
      else map useCaseEntry (filter isTableRow (split sec NL))
  end.

(** The header and separator lines of the table template that
    [GeminiService.createPrompt] asks the model to fill. *)
Definition prompt_table_header : string :=
  "| Industry | Use Case | Benefits / ROI | Product Feature |".

Definition prompt_table_separator : string :=
  "|----------|----------|---------------|-----------------|".

(** The start of a reply that follows the template of [createPrompt]:
    the table's header line and separator line. *)
Definition prompt_table_prefix : string :=
  NL ++ prompt_table_header ++ NL ++ prompt_table_separator ++ NL.

(** The rows of a section, as the code filters and formats them. *)
Definition tableEntries (sec : string) : list string :=
  map useCaseEntry (filter isTableRow (split sec NL)).

(** Text after the first occurrence of [sep], with the Standard Library's
    [index] (first occurrence) and [substring]. *)
Definition after_first (sep s : string) : option string :=
  match index 0 sep s with
  | None => None
  | Some i => Some (substring (i + length sep) (length s - (i + length sep)) s)
  end.

(** Text before the first occurrence of [sep], or all of [s]. *)
Definition cut_at (sep s : string) : string :=
  match index 0 sep s with
  | None => s
  | Some j => substring 0 j s
  end.

(** The use-case section as the spec describes it: from the end of the
    first heading to the next "##", or to the end of the text. *)
Definition spec_section (markdown : string) : option string :=
  option_map (cut_at "##") (after_first industry_heading markdown).

Definition spec_extract (markdown : string) : list string :=
  match spec_section markdown with
  | None => []
  | Some sec => tableEntries sec
  end.

End Parser.

Import Parser.

(* ================================================================= *)
(** ** [GeminiService]: summary generation and model fallback *)

Module Gemini.

Record ReleaseNote := {
  product_name : string;
  release_note_type : string;
  description : string;
  published_at : string
}.

Record SummaryResult := {
  markdown : string;
  keyFeatures : list string;
  industryUseCases : list string
}.

(** [GeminiService.extractKeyFeatures]: a row that passes the filter
    contains a "|", so its cell 1 always exists. *)
Definition key_features_heading : string := "## Key Features and Announcements".

Definition extractKeyFeatures (markdown : string) : list string :=
  let featuresSection :=
    match nth_error (split markdown key_features_heading) 1 with
    | None => None
    | Some after => nth_error (split after "##") 0
    end in
  match featuresSection with
  | None => []
  | Some sec =>
      if negb (truthy sec) then []
      else map (fun line => interp (nth_error (map trim (split line "|")) 1))
               (filter isTableRow (split sec NL))
  end.

(** What [axios.post] produces for one request: a response whose [data]
    is falsy, a response with the text found at
    [data.candidates[0].content.parts[0].text] (if any), an [AxiosError]
    (HTTP status of the error response, error code, message), or another
    [Error]. *)
Inductive ApiReply :=
  | ReplyEmpty
  | ReplyData (firstPartText : option string)
  | AxiosError (status : option Z) (code : option string) (message : string)
  | OtherError (message : string).

(** The network: the reply to a [generateContent] request for a model and
    a batch of notes (the prompt is [createPrompt notes]). *)
Definition Api := string -> list ReleaseNote -> ApiReply.

(** A promise that resolves with a value or rejects with an [Error]
    carrying a message. *)
Definition Result (A : Type) := (A + string)%type.

Definition DQ : string := String (ascii_of_nat 34) EmptyString.

Definition stable_fallback_model : string := "gemini-1.5-pro".

Definition wrap (msg : string) : string :=
  "Failed to generate summary using Gemini: " ++ msg.

Definition opt_eqb (x : option string) (s : string) : bool :=
  match x with Some y => String.eqb y s | None => false end.

(** The [catch] block of [generateSummaryWithModel] for an [AxiosError]. *)
Definition axiosErrorMessage (modelToUse : string) (status : option Z)
    (code : option string) (message : string) : string :=
  match status with
  | Some 403%Z =>
      "Access denied: API key may be invalid or lacks permissions for the specified model"
  | Some 404%Z =>
      "Model not found: " ++ DQ ++ modelToUse ++ DQ
      ++ " may not be available or correctly specified"
  | _ =>
      if opt_eqb code "ECONNREFUSED" || opt_eqb code "ENOTFOUND" then
        "Network error: Unable to connect to the Gemini API"
      else if opt_eqb code "ETIMEDOUT" then
        "Request timed out: The Gemini API took too long to respond"
      else wrap message
  end.

(** [GeminiService.generateSummaryWithModel]: the models it sent a request
    for, and its result. *)
Definition generateSummaryWithModel (apiKey : string) (api : Api)
    (notes : list ReleaseNote) (modelToUse : string)
    : list string * Result SummaryResult :=
  if negb (truthy apiKey) then
    ([], inr (wrap "Gemini API key is not configured. Please set GEMINI_API_KEY in your .env file."))
  else if negb (truthy modelToUse) then
    ([], inr (wrap "Gemini model is not configured. Please set GEMINI_MODEL in your .env file."))
  else
    ([modelToUse],
     match api modelToUse notes with
     | ReplyEmpty => inr (wrap "Empty response from Gemini API")
     | ReplyData t =>
         let text := match t with Some x => x | None => EmptyString end in
         if negb (truthy text) then
           inr (wrap "Could not extract text from the Gemini API response")
         else
           inl {| markdown := text;
                  keyFeatures := extractKeyFeatures text;
                  industryUseCases := extractIndustryUseCases text |}
     | AxiosError status code message =>
         inr (axiosErrorMessage modelToUse status code message)
     | OtherError message => inr (wrap message)
     end).

(** [GeminiService.isApiKeyConfigured] *)
Definition isApiKeyConfigured (apiKey : string) : bool :=
  truthy apiKey && (20 <? length apiKey)%nat.

(** [GeminiService.isExperimentalModel] *)
Definition isExperimentalModel (model : string) : bool :=
  truthy model &&
  (startsWith model "gemini-2." || includes model "-exp-"
   || includes model "-preview-").

(** The [model] field: [config.vertexAI.model], or ["gemini-1.5-pro"]
    when it is not set ([validateConfiguration]). *)
Definition serviceModel (configModel : string) : string :=
  if truthy configModel then configModel else "gemini-1.5-pro".

(** [GeminiService.generateSummary] *)
Definition generateSummary (apiKey model : string) (api : Api)
    (notes : list ReleaseNote) : list string * Result SummaryResult :=
  if negb (isApiKeyConfigured apiKey) then
    ([], inr "Gemini API key is not properly configured. Please set GEMINI_API_KEY in your .env file.")
  else
    let (tried, r) := generateSummaryWithModel apiKey api notes model in
    match r with
    | inl summary => (tried, inl summary)
    | inr err =>
        if isExperimentalModel model && includes err "Could not extract text" then
          let (tried', r') :=
            generateSummaryWithModel apiKey api notes stable_fallback_model in
          ((tried ++ tried')%list, r')
        else if includes err "Cannot find module" then
          (tried, inr ("Backend dependency missing. Please run " ++ DQ
                       ++ "cd backend && npm install" ++ DQ
                       ++ " to install required dependencies."))
        else (tried, inr err)
    end.

End Gemini.

(* ================================================================= *)
(** ** Configuration: validation of the model name *)

(** A line written to the console at start-up. *)
Inductive LogLine :=
  | Log (msg : string)
  | Warn (msg : string).

(** [process.env.GEMINI_MODEL || 'gemini-1.5-pro'] *)
Definition envModel (env : option string) : string :=
  match env with
  | Some s => if truthy s then s else "gemini-1.5-pro"
  | None => "gemini-1.5-pro"
  end.

(** [backend/src/config/index.ts] *)
Module Config.

Definition VALID_GEMINI_MODELS : list string :=
  ["gemini-1.5-pro"; "gemini-1.5-flash"; "gemini-1.0-pro"; "gemini-pro";
   "gemini-pro-vision"; "gemini-2.5-pro-exp-03-25"; "gemini-2.0-flash"].

(** The validated [geminiModel] and the lines logged while computing it. *)
Definition geminiModel (env : option string) : string * list LogLine :=
  let m := envModel env in
  if negb (existsb (String.eqb m) VALID_GEMINI_MODELS) then
    ("gemini-1.5-pro",
     [Warn ("Warning: Model " ++ Gemini.DQ ++ m ++ Gemini.DQ
            ++ " may not be widely available. Using " ++ Gemini.DQ
            ++ "gemini-1.5-pro" ++ Gemini.DQ ++ " as fallback.")])
  else (m, []).

End Config.

(** The configuration module of the second copy of the backend, which
    also accepts experimental-looking names. *)
Module ConfigWithExperimental.

Definition VALID_GEMINI_MODELS : list string := Config.VALID_GEMINI_MODELS.

Definition isExperimentalModel (m : string) : bool :=
  startsWith m "gemini-2." || includes m "-exp-" || includes m "-preview-".

Definition geminiModel (env : option string) : string * list LogLine :=
  let m := envModel env in
  let isKnownModel := existsb (String.eqb m) VALID_GEMINI_MODELS in
  if negb isKnownModel && negb (isExperimentalModel m) then
    ("gemini-1.5-pro",
     [Warn ("Warning: Model " ++ Gemini.DQ ++ m ++ Gemini.DQ
            ++ " is not in the list of known models. Using " ++ Gemini.DQ
            ++ "gemini-1.5-pro" ++ Gemini.DQ ++ " as fallback.")])
  else
    (m, Log ("Using Gemini model: " ++ m)
        :: (if isExperimentalModel m then
              [Log "Note: This is an experimental model and might have different API requirements."]
            else [])).

End ConfigWithExperimental.

(* ================================================================= *)
(** ** JavaScript Number arithmetic on integers *)

Module JsNumber.
Open Scope Z_scope.

(** The Number (IEEE-754 double) nearest to the integer [z], ties to the
    even significand: every integer of magnitude at most 2^53 is a
    Number; above it, a Number with [Z.log2 |z| = e] is a multiple of
    2^(e-52). [z] is taken below the overflow threshold 2^1024 - 2^970 in
    magnitude, which [c + 1] is for every finite Number [c]. *)
Definition roundToDouble (z : Z) : Z :=
  if Z.abs z <=? 2 ^ 53 then z
  else
    let u := 2 ^ (Z.log2 (Z.abs z) - 52) in
    let q := z / u in
    let r := z mod u in
    let h := u / 2 in
    if r <? h then q * u
    else if h <? r then (q + 1) * u
    else if Z.even q then q * u else (q + 1) * u.

(** [x + 1] on an integral Number [x]. *)
Definition add1 (x : Z) : Z := roundToDouble (x + 1).

End JsNumber.

(* ================================================================= *)
(** ** [VisitorCounterService]: the Firestore counter document *)

Module VisitorCounter.

(** The stored document [{count, lastUpdated}]; [count] is read with
    [doc.data()?.count || 0], so a missing field reads as 0. The count is
    a JavaScript Number holding an integer. *)
Record CounterDoc := {
  count : option Z;
  lastUpdated : Z
}.

(** The counter document: absent, or present. *)
Definition Store := option CounterDoc.

(** [doc.exists ? (doc.data()?.count || 0) : 0] *)
Definition storedCount (st : Store) : Z :=
  match st with
  | None => 0%Z
  | Some d => match count d with Some c => c | None => 0%Z end
  end.

(** The body of the [runTransaction] callback of [incrementCounter],
    run atomically by the store: read the count, write [count + 1] (a
    Number addition) with the timestamp [now], return the new count. *)
Definition incrementCounter (now : Z) (st : Store) : Z * Store :=
  let newCount := JsNumber.add1 (storedCount st) in
  (newCount, Some {| count := Some newCount; lastUpdated := now |}).

(** Sequential increments, one per timestamp: the values returned and the
    final store. *)
Fixpoint incrementMany (times : list Z) (st : Store) : list Z * Store :=
  match times with
  | [] => ([], st)
  | now :: rest =>
      let (c, st1) := incrementCounter now st in
      let (cs, st2) := incrementMany rest st1 in
      (c :: cs, st2)
  end.

(** The outcome of the plain read of [getCounter]. *)
Inductive ReadResult :=
  | ReadOk (st : Store)
  | ReadFailed.

(** [VisitorCounterService.getCounter] *)
Definition getCounter (r : ReadResult) : Gemini.Result Z :=
  match r with
  | ReadOk None => inl 0%Z
  | ReadOk st => inl (storedCount st)
  | ReadFailed => inr "Failed to get visitor counter"
  end.

End VisitorCounter.

(* ================================================================= *)
(** ** [ReleaseNotesController.getReleaseNotes] *)

Module Controller.
Import Gemini.

(** The query parameters of [GET /api/release-notes] ([None] when
    absent). *)
Record Query := {
  qTimeframe : option string;
  qTypes : option string;
  qProducts : option string;
  qSummarize : option string
}.

(** A value thrown by a collaborator: an [Error] with its message, or
    anything else. *)
Inductive Thrown :=
  | ThrownError (message : string)
  | ThrownOther.

Definition messageOr (e : Thrown) (dflt : string) : string :=
  match e with ThrownError m => m | ThrownOther => dflt end.

Record Filters := {
  fTimeframe : string;
  fTypes : list string;
  fProducts : list string
}.

Record SummaryError := {
  seMessage : string;
  seDetails : string
}.

Record ReleaseNotesResponse := {
  notes : list ReleaseNote;
  filters : Filters;
  summary : option SummaryResult;
  summaryError : option SummaryError
}.

Inductive HttpResponse :=
  | Json200 (body : ReleaseNotesResponse)
  | Error500 (error message : string).

(** The collaborators: [BigQueryService.getReleaseNotes] and
    [GeminiService.generateSummary]. *)
Definition Warehouse :=
  string -> list string -> list string -> (list ReleaseNote + Thrown)%type.
Definition Summarizer := list ReleaseNote -> (SummaryResult + Thrown)%type.

(** [(req.query.timeframe as string) || '7d'] *)
Definition timeframeParam (q : Query) : string :=
  match qTimeframe q with
  | Some s => if truthy s then s else "7d"
  | None => "7d"
  end.

(** [req.query.types ? (req.query.types as string).split(',') : []] *)
Definition listParam (p : option string) : list string :=
  match p with
  | Some s => if truthy s then split s "," else []
  | None => []
  end.

Definition summarizeParam (q : Query) : bool := opt_eqb (qSummarize q) "true".

Definition summaryErrorDetails : string :=
  "There was an issue connecting to Gemini API. Please check your API key and configuration.".

(** [ReleaseNotesController.getReleaseNotes]: the batches of notes given
    to the summarizer, and the HTTP response. *)
Definition getReleaseNotes (bq : Warehouse) (gem : Summarizer) (q : Query)
    : list (list ReleaseNote) * HttpResponse :=
  let timeframe := timeframeParam q in
  let types := listParam (qTypes q) in
  let products := listParam (qProducts q) in
  let summarize := summarizeParam q in
  match bq timeframe types products with
  | inr e =>
      ([], Error500 "Internal Server Error" (messageOr e "Unknown error occurred"))
  | inl ns =>
      let '(calls, summary, summaryError) :=
        if summarize && (0 <? List.length ns)%nat then
          match gem ns with
          | inl s => ([ns], Some s, None)
          | inr e =>
              ([ns], None,
               Some {| seMessage := messageOr e "Unknown error generating summary";
                       seDetails := summaryErrorDetails |})
          end
        else ([], None, None) in
      (calls,
       Json200 {| notes := ns;
                  filters := {| fTimeframe := timeframe; fTypes := types;
                                fProducts := products |};
                  summary := summary;
                  summaryError := summaryError |})
  end.

(** The [filters] echoed in the response. *)
Definition requestFilters (q : Query) : Filters :=
  {| fTimeframe := timeframeParam q; fTypes := listParam (qTypes q);
     fProducts := listParam (qProducts q) |}.

End Controller.

(* ================================================================= *)
(** ** JavaScript [Date] and [BigQueryService.getDateRange] *)

(** A [Date] holds a time value in milliseconds since the epoch, or NaN
    (an invalid date), written [None]. Calendar fields are computed in the
    proleptic Gregorian calendar of ECMAScript; the local time zone is a
    fixed offset [localTZA] (no daylight-saving changes). *)
Module JsDate.
Open Scope Z_scope.

Definition msPerDay : Z := 86400000.
Definition maxTime : Z := 8640000000000000.

Definition Day (t : Z) : Z := t / msPerDay.
Definition TimeWithinDay (t : Z) : Z := t mod msPerDay.

(** Year, month (1..12) and day of the month of a day number. *)
Definition civil_from_days (z : Z) : Z * Z * Z :=
  let z := z + 719468 in
  let era := z / 146097 in
  let doe := z - era * 146097 in
  let yoe := (doe - doe / 1460 + doe / 36524 - doe / 146096) / 365 in
  let y := yoe + era * 400 in
  let doy := doe - (365 * yoe + yoe / 4 - yoe / 100) in
  let mp := (5 * doy + 2) / 153 in
  let d := doy - (153 * mp + 2) / 5 + 1 in
  let m := if mp <? 10 then mp + 3 else mp - 9 in
  (if m <=? 2 then y + 1 else y, m, d).

(** Day number of a year, month (1..12) and day of the month. *)
Definition days_from_civil (y m d : Z) : Z :=
  let y := if m <=? 2 then y - 1 else y in
  let era := y / 400 in
  let yoe := y - era * 400 in
  let mp := if 2 <? m then m - 3 else m + 9 in
  let doy := (153 * mp + 2) / 5 + d - 1 in
  let doe := yoe * 365 + yoe / 4 - yoe / 100 + doy in
  era * 146097 + doe - 719468.

(** MakeDay(year, month, date), [month] counted from 0. *)
Definition MakeDay (year month date : Z) : Z :=
  let ym := year + month / 12 in
  let mn := month mod 12 in
  days_from_civil ym (mn + 1) 1 + date - 1.

Definition MakeDate (day time : Z) : Z := day * msPerDay + time.

Definition TimeClip (t : Z) : option Z :=
  if Z.abs t <=? maxTime then Some t else None.

Section LocalTime.
Variable localTZA : Z.

Definition LocalTime (t : Z) : Z := t + localTZA.
Definition UTC (t : Z) : Z := t - localTZA.

Definition civil_local (t : Z) : Z * Z * Z := civil_from_days (Day (LocalTime t)).

(** [getFullYear], [getMonth], [getDate]: NaN ([None]) on an invalid
    date. *)
Definition getFullYear (d : option Z) : option Z :=
  option_map (fun t => let '(y, _, _) := civil_local t in y) d.
Definition getMonth (d : option Z) : option Z :=
  option_map (fun t => let '(_, m, _) := civil_local t in m - 1) d.
Definition getDate (d : option Z) : option Z :=
  option_map (fun t => let '(_, _, dd) := civil_local t in dd) d.

(** [date.setDate(dt)]: the new date. *)
Definition setDate (d : option Z) (dt : option Z) : option Z :=
  match d, dt with
  | Some t, Some dt =>
      let lt := LocalTime t in
      let '(y, m, _) := civil_from_days (Day lt) in
      TimeClip (UTC (MakeDate (MakeDay y (m - 1) dt) (TimeWithinDay lt)))
  | _, _ => None
  end.

End LocalTime.

(** [String(n)] for an integral Number, and NaN. *)
Definition numberToString (n : option Z) : string :=
  match n with
  | Some z => NilEmpty.string_of_int (Z.to_int z)
  | None => "NaN"
  end.

(** [s.padStart(2, '0')] *)
Definition padStart2 (s : string) : string :=
  match String.length s with
  | O => "00"
  | S O => "0" ++ s
  | _ => s
  end.

(** [option] arithmetic on Numbers, NaN absorbing. *)
Definition nadd (a b : option Z) : option Z :=
  match a, b with Some x, Some y => Some (x + y) | _, _ => None end.
Definition nsub (a b : option Z) : option Z :=
  match a, b with Some x, Some y => Some (x - y) | _, _ => None end.

(** The quantities [civil_from_days] computes inside one 400-year era,
    from the day of the era [doe]. *)
Definition era_fields (doe : Z) : Z * Z * Z * Z :=
  let yoe := (doe - doe / 1460 + doe / 36524 - doe / 146096) / 365 in
  let doy := doe - (365 * yoe + yoe / 4 - yoe / 100) in
  let mp := (5 * doy + 2) / 153 in
  let d := doy - (153 * mp + 2) / 5 + 1 in
  (yoe, doy, mp, d).

Definition era_fields_ok (doe : Z) : bool :=
  let '(yoe, doy, mp, d) := era_fields doe in
  (0 <=? yoe) && (yoe <=? 399) && (0 <=? mp) && (mp <=? 11)
  && (1 <=? d) && (d <=? 31).

Fixpoint all_from (f : Z -> bool) (start : Z) (n : nat) : bool :=
  match n with
  | O => true
  | S k => f start && all_from f (start + 1) k
  end.

Definition era_length : nat := Z.to_nat 146097.

End JsDate.

(** [parseInt(s)] with no radix: leading white space, an optional sign,
    an optional "0x" prefix (radix 16), then the longest run of digits;
    NaN ([None]) when there is no digit. The value is the exact integer. *)
Module ParseInt.
Open Scope Z_scope.

Definition digitValue (radix : Z) (c : ascii) : option Z :=
  let n := Z.of_nat (nat_of_ascii c) in
  let v :=
    if (48 <=? n) && (n <=? 57) then Some (n - 48)
    else if (97 <=? n) && (n <=? 122) then Some (n - 87)
    else if (65 <=? n) && (n <=? 90) then Some (n - 55)
    else None in
  match v with
  | Some x => if x <? radix then Some x else None
  | None => None
  end.

(** The longest run of digits at the start of [s], as (value, count). *)
Fixpoint digitsPrefix (radix acc : Z) (count : nat) (s : string) : Z * nat :=
  match s with
  | EmptyString => (acc, count)
  | String c s' =>
      match digitValue radix c with
      | Some v => digitsPrefix radix (acc * radix + v) (S count) s'
      | None => (acc, count)
      end
  end.

Definition parseInt (s : string) : option Z :=
  let s := trim_start s in
  let '(sign, s) :=
    match s with
    | String "-" s' => (-1, s')
    | String "+" s' => (1, s')
    | _ => (1, s)
    end in
  let '(radix, s) :=
    match s with
    | String "0" (String "x" s') => (16, s')
    | String "0" (String "X" s') => (16, s')
    | _ => (10, s)
    end in
  let '(v, count) := digitsPrefix radix 0 0 s in
  match count with
  | O => None
  | S _ => Some (sign * v)
  end.

(** [s.replace('d', '')]: the first "d" removed. *)
Fixpoint replaceFirstD (s : string) : string :=
  match s with
  | EmptyString => EmptyString
  | String c s' => if Ascii.eqb c "d" then s' else String c (replaceFirstD s')
  end.

End ParseInt.

(** [BigQueryService.getDateRange] and the query text of
    [BigQueryService.getReleaseNotes]. *)
Module BigQuery.
Import JsDate ParseInt.

Section WithTimeZone.
Variable localTZA : Z.

(** [formatDate] *)
Definition formatDate (d : option Z) : string :=
  let year := numberToString (getFullYear localTZA d) in
  let month := padStart2 (numberToString (nadd (getMonth localTZA d) (Some 1%Z))) in
  let day := padStart2 (numberToString (getDate localTZA d)) in
  year ++ "-" ++ month ++ "-" ++ day.

(** The calendar day [(y, m, d)] written as [formatDate] writes a valid
    date. *)
Definition ymdString (ymd : Z * Z * Z) : string :=
  let '(y, m, d) := ymd in
  numberToString (Some y) ++ "-" ++ padStart2 (numberToString (Some m)) ++ "-"
  ++ padStart2 (numberToString (Some d)).

(** The local day number of the instant [t]. *)
Definition localDay (t : Z) : Z := Day (LocalTime localTZA t).

(** [getDateRange(timeframe)] at the instant [now] (the time value of
    [new Date()]): (startDate, endDate). *)
Definition getDateRange (now : Z) (timeframe : string) : string * string :=
  let nowD := Some now in
  let days := parseInt (replaceFirstD timeframe) in
  let startDate := setDate localTZA nowD (nsub (getDate localTZA nowD) days) in
  (formatDate startDate, formatDate nowD).

End WithTimeZone.

(** The conditional lines of the query text. *)
Definition typesClause (types : list string) : string :=
  match types with [] => "" | _ => "AND release_note_type IN UNNEST(@types)" end.
Definition productsClause (products : list string) : string :=
  match products with [] => "" | _ => "AND product_name IN UNNEST(@products)" end.

(** The lines of the query text of [getReleaseNotes]. *)
Definition releaseNotesQuery (dataset table : string) (types products : list string)
    : list string :=
  ["SELECT"; "product_name,"; "release_note_type,"; "description,";
   "DATE(published_at) as published_at";
   "FROM `" ++ dataset ++ "." ++ table ++ "`";
   "WHERE DATE(published_at) BETWEEN DATE(@startDate) AND DATE(@endDate)";
   typesClause types; productsClause products;
   "ORDER BY published_at DESC"].

End BigQuery.

(** Decimal numerals: a list of digits (each 0..9), its text and its
    value. *)
Module Decimal.
Open Scope Z_scope.

Definition digit_char (d : Z) : ascii := ascii_of_nat (48 + Z.to_nat d).

Fixpoint decimalString (ds : list Z) : string :=
  match ds with
  | [] => EmptyString
  | d :: ds' => String (digit_char d) (decimalString ds')
  end.

Definition decimalValue (ds : list Z) : Z := fold_left (fun a d => a * 10 + d) ds 0.

Definition is_digit (d : Z) : Prop := 0 <= d <= 9.

End Decimal.

(* ================================================================= *)
(** ** [Array.prototype.join] *)

Module JsArray.

(** [xs.join(sep)] *)
Fixpoint join (sep : string) (xs : list string) : string :=
  match xs with
  | [] => EmptyString
  | [x] => x
  | x :: xs' => x ++ sep ++ join sep xs'
  end.

End JsArray.

(* ================================================================= *)
(** ** The request URL of [generateSummaryWithModel], the product list of
    [createPrompt] and the sections read by [extractKeyFeatures] *)

Module GeminiRequest.
Import Gemini.

Definition v1_url : string := "https://generativelanguage.googleapis.com/v1".
Definition v1beta_url : string := "https://generativelanguage.googleapis.com/v1beta".

(** [apiBaseUrl] in [generateSummaryWithModel] *)
Definition apiBaseUrl (modelToUse : string) : string :=
  if startsWith modelToUse "gemini-2." || includes modelToUse "-exp-"
     || includes modelToUse "-preview-"
  then v1beta_url else v1_url.

(** [`${apiBaseUrl}/models/${modelToUse}:generateContent?key=${this.apiKey}`] *)
Definition endpoint (apiKey modelToUse : string) : string :=
  apiBaseUrl modelToUse ++ "/models/" ++ modelToUse ++ ":generateContent?key="
  ++ apiKey.

(** [[...new Set(xs)]]: a [Set] iterates in insertion order, and adding a
    value it holds changes nothing. *)
Definition setFromList (xs : list string) : list string :=
  fold_left (fun acc x => if existsb (String.eqb x) acc then acc else (acc ++ [x])%list)
    xs [].

(** [[...new Set(notes.map(note => note.product_name))]] in [createPrompt] *)
Definition distinctProducts (notes : list ReleaseNote) : list string :=
  setFromList (map product_name notes).

(** The entries [extractKeyFeatures] makes of a section: cell 1 of each
    table row. *)
Definition keyFeatureEntries (sec : string) : list string :=
  map (fun line => interp (nth_error (map trim (split line "|")) 1))
      (filter isTableRow (split sec NL)).

End GeminiRequest.

(* ================================================================= *)
(** ** [VisitorCounterController] over [VisitorCounterService] *)

Module VisitorCounterEndpoints.
Import VisitorCounter.

(** The JSON answer: [{count}], or a 500 with [{error, message}]. *)
Inductive CounterResponse :=
  | CountJson (count : Z)
  | CounterError500 (error message : string).

(** How [runTransaction] ends: the callback's writes are committed, or
    the transaction fails and nothing is written. *)
Inductive TxOutcome :=
  | TxCommit
  | TxAbort.

(** [VisitorCounterService.incrementCounter]: its result and the store
    afterwards. *)
Definition incrementService (now : Z) (tx : TxOutcome) (st : Store)
    : Gemini.Result Z * Store :=
  match tx with
  | TxCommit => let (c, st') := incrementCounter now st in (inl c, st')
  | TxAbort => (inr "Failed to increment visitor counter", st)
  end.

(** [res.json({ count })], or the [catch] block of the controller. *)
Definition respond (r : Gemini.Result Z) : CounterResponse :=
  match r with
  | inl c => CountJson c
  | inr m => CounterError500 "Internal Server Error" m
  end.

(** [POST /api/visitor-counter/increment] *)
Definition postIncrement (now : Z) (tx : TxOutcome) (st : Store)
    : CounterResponse * Store :=
  let (r, st') := incrementService now tx st in (respond r, st').

(** [GET /api/visitor-counter]: the read sees the store, or fails. *)
Definition getCount (readOk : bool) (st : Store) : CounterResponse :=
  respond (getCounter (if readOk then ReadOk st else ReadFailed)).

End VisitorCounterEndpoints.

(* ================================================================= *)
(** ** The catch-all [GET *] route of the server and the 404 handler *)

Module Server.

(** The first middleware: [Some location] is the 301 redirect to HTTPS,
    [None] is [next()]. [forwardedProto] and [host] are the request's
    [x-forwarded-proto] and [host] headers ([None] when absent); [url] is
    [req.url]. *)
Definition httpsRedirect (forwardedProto host : option string) (path url : string)
    : option string :=
  if Gemini.opt_eqb forwardedProto "http" && negb (String.eqb path "/health")
     && negb (startsWith path "/api/")
  then Some ("https://" ++ interp host ++ url)
  else None.

(** What the [app.get('*')] handler does for a request path that no
    earlier route or static file answered. *)
Inductive CatchAll :=
  | PassToNext
  | StaticTestPage
  | SendIndexHtml
  | RedirectTo (location : string).

(** [indexExists]: [fs.existsSync(indexPath)]; [readOk]: whether
    [fs.readFileSync(indexPath)] succeeds. *)
Definition catchAll (path : string) (indexExists readOk : bool) : CatchAll :=
  if startsWith path "/api/" || String.eqb path "/health"
     || String.eqb path "/debug" || String.eqb path "/test"
     || startsWith path "/static-file-test/" || startsWith path "/assets/"
  then PassToNext
  else if String.eqb path "/static-test" then StaticTestPage
  else if indexExists then
    (if readOk then SendIndexHtml else RedirectTo "/static-test")
  else RedirectTo "/static-test".

(** The answer to such a request: [next()] reaches the 404 handler;
    [sendOk]: whether [res.sendFile(indexPath)] succeeds. *)
Inductive Answer :=
  | NotFoundJson (error : string)
  | StaticTestHtml
  | IndexHtml
  | Text500 (body : string)
  | Redirect (location : string).

Definition answer (sendOk : bool) (r : CatchAll) : Answer :=
  match r with
  | PassToNext => NotFoundJson "Not Found"
  | StaticTestPage => StaticTestHtml
  | SendIndexHtml =>
      if sendOk then IndexHtml else Text500 "Error serving frontend application"
  | RedirectTo l => Redirect l
  end.

End Server.

(* ================================================================= *)
(** ** Sample inputs of the examples below *)

Module Samples.
Import Gemini Controller.

Definition sample_key : string := "AIzaSyA-0123456789abcdefghij".

Definition sample_query : Query :=
  {| qTimeframe := Some "30d"; qTypes := Some "FEATURE"; qProducts := None;
     qSummarize := Some "true" |}.

Definition sample_note : ReleaseNote :=
  {| product_name := "BigQuery"; release_note_type := "FEATURE";
     description := "New feature."; published_at := "2025-10-14" |}.

Definition sample_summary : SummaryResult :=
  {| markdown := "## Summary"; keyFeatures := []; industryUseCases := [] |}.

End Samples.

(* ================================================================= *)
(** * Proofs *)

(* ----------------------------------------------------------------- *)
(** ** Facts about the JavaScript string primitives *)

Module JsStringFacts.

Lemma prefix_cons (a b : ascii) (s1 s2 : string) :
  prefix (String a s1) (String b s2)
  = if ascii_dec a b then prefix s1 s2 else false.
Proof. reflexivity. Qed.

Lemma prefix_nil (s : string) : prefix EmptyString s = true.
Proof. destruct s; reflexivity. Qed.

Lemma append_nil_str (s : string) : s ++ EmptyString = s.
Proof. induction s as [|c s IH]; simpl; [reflexivity | now rewrite IH]. Qed.

Lemma prefix_app (p t : string) : prefix p (p ++ t) = true.
Proof.
  induction p as [|a p IH]; [apply prefix_nil|].
  simpl append. rewrite prefix_cons.
  destruct (ascii_dec a a) as [_|n]; [exact IH | now elim n].
Qed.

Lemma index_nil_nonempty (sep : string) :
  sep <> EmptyString -> index 0 sep EmptyString = None.
Proof. destruct sep; [congruence | reflexivity]. Qed.

Lemma index_cons (sep : string) (c : ascii) (s : string) :
  index 0 sep (String c s)
  = if prefix sep (String c s) then Some 0
    else match index 0 sep s with Some n => Some (S n) | None => None end.
Proof. reflexivity. Qed.

Lemma index_app_prefix (p t : string) : index 0 p (p ++ t) = Some 0.
Proof.
  destruct p as [|a p].
  - destruct t; [reflexivity|]. simpl append. rewrite index_cons, prefix_nil. reflexivity.
  - simpl append. rewrite index_cons.
    change (String a (p ++ t)) with (String a p ++ t). now rewrite prefix_app.
Qed.

Lemma substring_whole (s : string) : substring 0 (length s) s = s.
Proof. induction s as [|c s IH]; simpl; [reflexivity | now rewrite IH]. Qed.

Lemma append_assoc_str (a b c : string) : (a ++ b) ++ c = a ++ (b ++ c).
Proof. induction a as [|x a IH]; simpl; [reflexivity | now rewrite IH]. Qed.

Lemma length_append_str (a b : string) : length (a ++ b) = length a + length b.
Proof. induction a as [|x a IH]; simpl; [reflexivity | now rewrite IH]. Qed.

(** [strip_prefix] agrees with the library's [prefix]: the rest is the
    substring after the prefix. *)
Lemma strip_prefix_spec (sep s : string) :
  strip_prefix sep s
  = if prefix sep s
    then Some (substring (length sep) (length s - length sep) s)
    else None.
Proof.
  revert s; induction sep as [|a sep IH]; intros s.
  - rewrite prefix_nil. simpl. rewrite Nat.sub_0_r, substring_whole. reflexivity.
  - destruct s as [|b s]; [reflexivity|].
    rewrite prefix_cons. simpl strip_prefix.
    destruct (ascii_dec a b) as [<-|Hne].
    + rewrite Ascii.eqb_refl, IH. reflexivity.
    + apply Ascii.eqb_neq in Hne. now rewrite Hne.
Qed.

Lemma strip_prefix_app (p t : string) : strip_prefix p (p ++ t) = Some t.
Proof.
  induction p as [|a p IH]; [reflexivity|].
  simpl. now rewrite Ascii.eqb_refl.
Qed.

Lemma substring_skip_app (p t : string) :
  substring (length p) (length (p ++ t) - length p) (p ++ t) = t.
Proof.
  induction p as [|a p IH].
  - simpl. rewrite Nat.sub_0_r. apply substring_whole.
  - exact IH.
Qed.

Lemma strip_prefix_cons_neq (c x : ascii) (sep t : string) :
  x <> c -> strip_prefix (String c sep) (String x t) = None.
Proof.
  intros Hne. simpl. destruct (Ascii.eqb c x) eqn:E; [|reflexivity].
  apply Ascii.eqb_eq in E. congruence.
Qed.

Lemma break_at_unfold (sep s : string) :
  break_at sep s =
  match strip_prefix sep s with
  | Some rest => Some (EmptyString, rest)
  | None =>
      match s with
      | EmptyString => None
      | String c s' =>
          match break_at sep s' with
          | Some (before, after) => Some (String c before, after)
          | None => None
          end
      end
  end.
Proof. destruct s; reflexivity. Qed.

(** [break_at] cuts at the first occurrence found by the library's
    [index]. *)
Lemma break_at_index (sep s : string) :
  sep <> EmptyString ->
  break_at sep s =
  match index 0 sep s with
  | None => None
  | Some i =>
      Some (substring 0 i s,
            substring (i + length sep) (length s - (i + length sep)) s)
  end.
Proof.
  intros Hsep. induction s as [|c s IH].
  - rewrite index_nil_nonempty by exact Hsep.
    destruct sep; [congruence | reflexivity].
  - rewrite break_at_unfold, strip_prefix_spec, index_cons.
    destruct (prefix sep (String c s)).
    + reflexivity.
    + rewrite IH. destruct (index 0 sep s); reflexivity.
Qed.

Lemma split_fuel_S (n : nat) (sep s : string) :
  split_fuel (S n) sep s =
  match break_at sep s with
  | None => [s]
  | Some (before, after) => before :: split_fuel n sep after
  end.
Proof. reflexivity. Qed.

Lemma split_fuel_cons (n : nat) (sep s before after : string) :
  break_at sep s = Some (before, after) ->
  split_fuel (S n) sep s = before :: split_fuel n sep after.
Proof. intros H. simpl. now rewrite H. Qed.

Lemma nth0_split_fuel (n : nat) (sep s : string) :
  nth_error (split_fuel (S n) sep s) 0 = Some (first_piece sep s).
Proof. simpl. unfold first_piece. destruct (break_at sep s) as [[b a]|]; reflexivity. Qed.

Lemma nth1_split (sep s : string) :
  sep <> EmptyString ->
  nth_error (split s sep) 1 =
  match break_at sep s with
  | None => None
  | Some (_, after) => Some (first_piece sep after)
  end.
Proof.
  intros Hsep. unfold split.
  destruct s as [|c s].
  - destruct sep as [|a sep]; [congruence | reflexivity].
  - simpl length. remember (S (length s)) as n.
    rewrite split_fuel_S.
    destruct (break_at sep (String c s)) as [[b a]|]; [|reflexivity].
    subst n. apply nth0_split_fuel.
Qed.

Lemma break_at_avoiding (c : ascii) (sep p t : string) :
  avoids c p = true ->
  break_at (String c sep) (p ++ t) =
  match break_at (String c sep) t with
  | Some (before, after) => Some (p ++ before, after)
  | None => None
  end.
Proof.
  induction p as [|x p IH]; intros Hp.
  - simpl. destruct (break_at (String c sep) t) as [[b a]|]; reflexivity.
  - simpl in Hp. apply andb_true_iff in Hp as [Hx Hp].
    apply negb_true_iff, Ascii.eqb_neq in Hx.
    simpl append. rewrite break_at_unfold, strip_prefix_cons_neq by exact Hx.
    rewrite IH by exact Hp.
    destruct (break_at (String c sep) t) as [[b a]|]; reflexivity.
Qed.

Lemma first_piece_avoiding (c : ascii) (sep p t : string) :
  avoids c p = true ->
  first_piece (String c sep) (p ++ t) = p ++ first_piece (String c sep) t.
Proof.
  intros Hp. unfold first_piece. rewrite break_at_avoiding by exact Hp.
  destruct (break_at (String c sep) t) as [[b a]|]; reflexivity.
Qed.

Lemma break_at_char_line (c : ascii) (line u : string) :
  avoids c line = true ->
  break_at (String c EmptyString) (line ++ String c u) = Some (line, u).
Proof.
  intros Hl. rewrite break_at_avoiding by exact Hl.
  rewrite break_at_unfold. simpl. rewrite Ascii.eqb_refl.
  now rewrite append_nil_str.
Qed.

End JsStringFacts.

(* ----------------------------------------------------------------- *)
(** ** The use-case parser *)

Import JsStringFacts.

Example getDateRange_sample :
  BigQuery.getDateRange 0 1772496000000%Z "7d" = ("2026-02-24", "2026-03-03").
Proof. vm_compute. reflexivity. Qed.

Example extract_sample :
  extractIndustryUseCases
    ("intro" ++ NL ++ "## Industry Use Cases" ++ NL ++ prompt_table_header ++ NL
     ++ prompt_table_separator ++ NL ++ "| Retail | Forecasting | 10% | BigQuery |"
     ++ NL ++ "## Next")
  = ["Industry: Use Case"; "Retail: Forecasting"].
Proof. vm_compute. reflexivity. Qed.

Lemma first_piece_cut_at (sep s : string) :
  sep <> EmptyString -> first_piece sep s = cut_at sep s.
Proof.
  intros Hsep. unfold first_piece, cut_at. rewrite break_at_index by exact Hsep.
  destruct (index 0 sep s); reflexivity.
Qed.

Lemma truthy_guard (sec : string) :
  (if negb (truthy sec) then [] else tableEntries sec) = tableEntries sec.
Proof. destruct sec; reflexivity. Qed.

(** The parser, read through the library's [index]: the section is the text
    after the first heading, cut at the next heading, then at the first
    "##" of what remains. *)
Lemma extract_by_index (md : string) :
  extractIndustryUseCases md =
  match after_first industry_heading md with
  | None => []
  | Some a => tableEntries (cut_at "##" (cut_at industry_heading a))
  end.
Proof.
  unfold extractIndustryUseCases, after_first.
  rewrite nth1_split by discriminate.
  rewrite break_at_index by discriminate.
  destruct (index 0 industry_heading md) as [i|]; [|reflexivity].
  cbn beta iota.
  unfold split. rewrite nth0_split_fuel.
  rewrite !first_piece_cut_at by discriminate.
  apply truthy_guard.
Qed.

Lemma cut_at_absent (sep s : string) :
  includes s sep = false -> cut_at sep s = s.
Proof. unfold includes, cut_at. destruct (index 0 sep s); congruence. Qed.

Lemma after_first_absent (sep s : string) :
  includes s sep = false -> after_first sep s = None.
Proof. unfold includes, after_first. destruct (index 0 sep s); congruence. Qed.

Lemma break_at_prefix_app (p t : string) :
  break_at p (p ++ t) = Some (EmptyString, t).
Proof. rewrite break_at_unfold, strip_prefix_app. reflexivity. Qed.

Lemma after_first_heading (t : string) :
  after_first industry_heading (industry_heading ++ t) = Some t.
Proof.
  unfold after_first. rewrite index_app_prefix.
  f_equal. apply substring_skip_app.
Qed.

(** A reply that follows the template: its section starts with the
    header line and the separator line. *)
(** A reply that follows the template: its section starts with the
    header line and the separator line. *)
Lemma split_template_lines (rest : string) :
  exists lines,
    split (prompt_table_prefix ++ rest) NL
    = EmptyString :: prompt_table_header :: prompt_table_separator :: lines.
Proof.
  unfold split. rewrite length_append_str.
  assert (Hlen : length prompt_table_prefix = 118) by reflexivity.
  rewrite Hlen. cbn [Nat.add].
  unfold prompt_table_prefix.
  rewrite (split_fuel_cons _ _ _ EmptyString
             (prompt_table_header ++ NL ++ prompt_table_separator ++ NL ++ rest)).
  2:{ rewrite !append_assoc_str. apply break_at_prefix_app. }
  rewrite (split_fuel_cons _ _ _ prompt_table_header
             (prompt_table_separator ++ NL ++ rest)).
  2:{ apply break_at_char_line. reflexivity. }
  rewrite (split_fuel_cons _ _ _ prompt_table_separator rest).
  2:{ apply break_at_char_line. reflexivity. }
  eexists. reflexivity.
Qed.

(** C6 (amended): without the heading "## Industry Use Cases" the parser
    returns the empty list; with it, the entries are the table rows (lines
    whose trimmed form starts with "|" and that contain no "---") of the
    text after the first heading, cut at the next occurrence of the heading
    and then at the first "##" of what remains. When the heading occurs
    only once this is exactly the text between the heading and the next
    "##" (or the end of the text). *)
Theorem extractIndustryUseCases_section (md : string) :
  (includes md industry_heading = false -> extractIndustryUseCases md = []) /\
  extractIndustryUseCases md =
    match after_first industry_heading md with
    | None => []
    | Some a => tableEntries (cut_at "##" (cut_at industry_heading a))
    end /\
  (forall a, after_first industry_heading md = Some a ->
             includes a industry_heading = false ->
             extractIndustryUseCases md = spec_extract md).
Proof.
  split; [|split].
  - intros Habs. rewrite extract_by_index, after_first_absent by exact Habs.
    reflexivity.
  - apply extract_by_index.
  - intros a Ha Hone. rewrite extract_by_index. unfold spec_extract, spec_section.
    rewrite Ha. simpl option_map. rewrite (cut_at_absent industry_heading a Hone).
    reflexivity.
Qed.

Lemma extractIndustryUseCases_section_witness :
  includes "no table here" industry_heading = false /\
  extractIndustryUseCases "no table here" = [].
Proof.
  split; [reflexivity|].
  apply (proj1 (extractIndustryUseCases_section "no table here")).
  reflexivity.
Defined.

(** C6, as stated, fails: a single "#" right before a repeated heading is
    kept in the section by the code, while the text up to the next "##"
    stops before it. *)
Lemma extractIndustryUseCases_repeated_heading_cex :
  extractIndustryUseCases
    (industry_heading ++ NL ++ "| a | b #" ++ industry_heading) = ["a: b #"] /\
  spec_extract (industry_heading ++ NL ++ "| a | b #" ++ industry_heading)
    = ["a: b"].
Proof. split; vm_compute; reflexivity. Qed.

(** C10: the parser does not skip the table's header row: for every reply
    that starts with the heading and the table template of [createPrompt],
    the first extracted entry is the header text "Industry: Use Case". *)
Theorem extractIndustryUseCases_keeps_header (body : string) :
  isTableRow prompt_table_header = true /\
  exists rest,
    extractIndustryUseCases (industry_heading ++ prompt_table_prefix ++ body)
    = "Industry: Use Case" :: rest.
Proof.
  split; [reflexivity|].
  rewrite extract_by_index, after_first_heading.
  assert (Hh : avoids "#" prompt_table_prefix = true) by reflexivity.
  rewrite <- (first_piece_cut_at industry_heading) by discriminate.
  change industry_heading with (String "#" "# Industry Use Cases").
  rewrite first_piece_avoiding by exact Hh.
  rewrite <- (first_piece_cut_at "##") by discriminate.
  rewrite first_piece_avoiding by exact Hh.
  destruct (split_template_lines
              (first_piece "##" (first_piece (String "#" "# Industry Use Cases") body)))
    as [lines Hl].
  unfold tableEntries. rewrite Hl.
  exists (map useCaseEntry (filter isTableRow lines)).
  reflexivity.
Qed.

(* ----------------------------------------------------------------- *)
(** ** Summary generation and model fallback *)

Module GeminiFacts.
Import Gemini.

Lemma configured_key_truthy (apiKey : string) :
  isApiKeyConfigured apiKey = true -> truthy apiKey = true.
Proof. unfold isApiKeyConfigured. now intros [H _]%andb_true_iff. Qed.


Lemma withModel_call (apiKey m : string) (api : Api) (notes : list ReleaseNote) :
  truthy apiKey = true -> truthy m = true ->
  fst (generateSummaryWithModel apiKey api notes m) = [m].
Proof.
  intros Hk Hm. unfold generateSummaryWithModel. rewrite Hk, Hm. reflexivity.
Qed.





End GeminiFacts.

(* ----------------------------------------------------------------- *)
(** ** Model-name validation *)

Module ConfigFacts.
Import Gemini.

Lemma envModel_set (name : string) :
  truthy name = true -> envModel (Some name) = name.
Proof. intros H. simpl. now rewrite H. Qed.

Lemma existsb_listed (n : string) :
  existsb (String.eqb n) Config.VALID_GEMINI_MODELS = true
  <-> In n Config.VALID_GEMINI_MODELS.
Proof.
  rewrite existsb_exists. split.
  - intros [y [Hy Heq]]. apply String.eqb_eq in Heq. now subst.
  - intros H. exists n. split; [exact H | apply String.eqb_refl].
Qed.

Lemma fallback_listed : In "gemini-1.5-pro" Config.VALID_GEMINI_MODELS.
Proof. simpl. left. reflexivity. Qed.

(** C2 (amended): in the two configuration modules ([config/index.ts] and
    the copy that recognises experimental names), a configured name that
    is neither in the allow-list nor experimental-looking is reported with
    a warning and replaced by "gemini-1.5-pro"; that replacement is the
    model the service sends its requests for. A set name is kept exactly
    when it is in the allow-list ([config/index.ts], which also replaces
    an unlisted experimental-looking name), or when it is in the
    allow-list or experimental-looking (the other copy). *)
Theorem geminiModel_unknown_replaced (name : string) :
  truthy name = true ->
  existsb (String.eqb name) Config.VALID_GEMINI_MODELS = false ->
  ConfigWithExperimental.isExperimentalModel name = false ->
  (exists w, Config.geminiModel (Some name) = ("gemini-1.5-pro", [Warn w])) /\
  (exists w, ConfigWithExperimental.geminiModel (Some name)
             = ("gemini-1.5-pro", [Warn w])) /\
  (forall apiKey api notes,
     truthy apiKey = true ->
     fst (generateSummaryWithModel apiKey api notes
            (serviceModel (fst (Config.geminiModel (Some name)))))
     = ["gemini-1.5-pro"] /\
     fst (generateSummaryWithModel apiKey api notes
            (serviceModel (fst (ConfigWithExperimental.geminiModel (Some name)))))
     = ["gemini-1.5-pro"]) /\
  (forall n, truthy n = true ->
     fst (Config.geminiModel (Some n)) = n <-> In n Config.VALID_GEMINI_MODELS) /\
  (forall n, truthy n = true ->
     fst (ConfigWithExperimental.geminiModel (Some n)) = n
     <-> In n Config.VALID_GEMINI_MODELS
         \/ ConfigWithExperimental.isExperimentalModel n = true).
Proof.
  intros Ht Hunk Hexp.
  assert (H1 : fst (Config.geminiModel (Some name)) = "gemini-1.5-pro").
  { unfold Config.geminiModel. rewrite envModel_set, Hunk by exact Ht. reflexivity. }
  assert (H2 : fst (ConfigWithExperimental.geminiModel (Some name)) = "gemini-1.5-pro").
  { unfold ConfigWithExperimental.geminiModel, ConfigWithExperimental.VALID_GEMINI_MODELS.
    rewrite envModel_set, Hunk, Hexp by exact Ht. reflexivity. }
  split; [|split; [|split; [|split]]].
  - unfold Config.geminiModel. rewrite envModel_set, Hunk by exact Ht.
    eexists. reflexivity.
  - unfold ConfigWithExperimental.geminiModel, ConfigWithExperimental.VALID_GEMINI_MODELS.
    rewrite envModel_set, Hunk, Hexp by exact Ht. eexists. reflexivity.
  - intros apiKey api notes Hk. rewrite H1, H2.
    split; apply GeminiFacts.withModel_call; [exact Hk | reflexivity | exact Hk | reflexivity].
  - intros n Hn. unfold Config.geminiModel. rewrite envModel_set by exact Hn.
    destruct (existsb (String.eqb n) Config.VALID_GEMINI_MODELS) eqn:E;
      simpl negb; cbv iota; cbn [fst].
    + apply existsb_listed in E. tauto.
    + split.
      * intros <-. exact fallback_listed.
      * intros Hin. apply existsb_listed in Hin. congruence.
  - intros n Hn. unfold ConfigWithExperimental.geminiModel,
      ConfigWithExperimental.VALID_GEMINI_MODELS.
    rewrite envModel_set by exact Hn.
    destruct (existsb (String.eqb n) Config.VALID_GEMINI_MODELS) eqn:E;
      destruct (ConfigWithExperimental.isExperimentalModel n) eqn:X;
      simpl negb; simpl andb; cbv iota; cbn [fst].
    + tauto.
    + apply existsb_listed in E. tauto.
    + tauto.
    + split.
      * intros <-. left. exact fallback_listed.
      * intros [Hin|Hx]; [apply existsb_listed in Hin|]; congruence.
Qed.

Lemma geminiModel_unknown_replaced_witness :
  truthy "gemini-ultra" = true /\
  existsb (String.eqb "gemini-ultra") Config.VALID_GEMINI_MODELS = false /\
  ConfigWithExperimental.isExperimentalModel "gemini-ultra" = false /\
  exists w, Config.geminiModel (Some "gemini-ultra") = ("gemini-1.5-pro", [Warn w]).
Proof.
  split; [reflexivity|]. split; [reflexivity|]. split; [reflexivity|].
  exact (proj1 (geminiModel_unknown_replaced "gemini-ultra" eq_refl eq_refl eq_refl)).
Defined.

(** C2, as stated, fails: the unknown, non-experimental name
    "gemini-ultra" is not kept; both configuration modules replace it. *)
Lemma geminiModel_unknown_cex :
  fst (Config.geminiModel (Some "gemini-ultra")) <> "gemini-ultra" /\
  fst (ConfigWithExperimental.geminiModel (Some "gemini-ultra")) <> "gemini-ultra".
Proof. vm_compute. split; discriminate. Qed.

(** The module that recognises experimental names keeps a known or an
    experimental-looking name. *)
Lemma geminiModel_kept (name : string) :
  truthy name = true ->
  existsb (String.eqb name) Config.VALID_GEMINI_MODELS
  || ConfigWithExperimental.isExperimentalModel name = true ->
  fst (ConfigWithExperimental.geminiModel (Some name)) = name.
Proof.
  intros Ht Hk. unfold ConfigWithExperimental.geminiModel,
    ConfigWithExperimental.VALID_GEMINI_MODELS.
  rewrite envModel_set by exact Ht.
  destruct (existsb (String.eqb name) Config.VALID_GEMINI_MODELS);
    destruct (ConfigWithExperimental.isExperimentalModel name);
    try discriminate; reflexivity.
Qed.

End ConfigFacts.

(* ----------------------------------------------------------------- *)
(** ** The visitor counter *)

Module VisitorCounterFacts.
Import VisitorCounter.
Open Scope Z_scope.

(** Integers of magnitude at most 2^53 are Numbers: adding 1 is exact
    up to 2^53. *)
Lemma roundToDouble_small (z : Z) :
  - 2 ^ 53 <= z <= 2 ^ 53 -> JsNumber.roundToDouble z = z.
Proof.
  intros Hz. unfold JsNumber.roundToDouble.
  replace (Z.abs z <=? 2 ^ 53) with true; [reflexivity|].
  symmetry. apply Z.leb_le. apply Z.abs_le. lia.
Qed.

Lemma incrementCounter_exact (now : Z) (st : Store) :
  - 2 ^ 53 <= storedCount st + 1 <= 2 ^ 53 ->
  incrementCounter now st
  = (storedCount st + 1,
     Some {| count := Some (storedCount st + 1); lastUpdated := now |}).
Proof.
  intros H. unfold incrementCounter, JsNumber.add1.
  rewrite roundToDouble_small by exact H. reflexivity.
Qed.

(** The values returned and the final document of a run of sequential
    increments from a document whose count reads as [c], while the
    counts stay within 2^53. *)
Lemma incrementMany_eq (times : list Z) (st : Store) :
  - 2 ^ 53 <= storedCount st + 1 ->
  storedCount st + Z.of_nat (List.length times) <= 2 ^ 53 ->
  incrementMany times st =
  (map (fun i => (storedCount st + Z.of_nat i)%Z) (seq 1 (List.length times)),
   match times with
   | [] => st
   | _ => Some {| count := Some (storedCount st + Z.of_nat (List.length times))%Z;
                  lastUpdated := last times 0%Z |}
   end).
Proof.
  revert st. induction times as [|now rest IH]; intros st Hlo Hhi; [reflexivity|].
  simpl List.length in Hhi.
  cbn [incrementMany]. rewrite incrementCounter_exact by lia. rewrite IH; cbn [storedCount count];
    [|lia|lia].
  simpl List.length.
  f_equal.
  - simpl seq. simpl map.
    replace (seq 2 (List.length rest)) with (map S (seq 1 (List.length rest)))
      by apply seq_shift.
    rewrite map_map. apply f_equal2; [lia|].
    apply map_ext. intros i. lia.
  - destruct rest as [|t rest'].
    + simpl. do 3 f_equal; lia.
    + simpl List.length. do 3 f_equal; lia.
Qed.

(** C3 (amended): from a document whose count reads as [c] (0 when the
    document is absent), N >= 1 sequential transactional increments with
    [c + N <= 2^53] leave the stored count at exactly [c + N]; the calls
    return c+1, ..., c+N in order, so no update is lost and the count
    never decreases. *)
Theorem incrementCounter_sequential (times : list Z) (st : Store) :
  times <> [] ->
  - 2 ^ 53 <= storedCount st + 1 ->
  storedCount st + Z.of_nat (List.length times) <= 2 ^ 53 ->
  fst (incrementMany times st)
    = map (fun i => (storedCount st + Z.of_nat i)%Z) (seq 1 (List.length times)) /\
  (exists now, snd (incrementMany times st)
     = Some {| count := Some (storedCount st + Z.of_nat (List.length times))%Z;
               lastUpdated := now |}) /\
  storedCount (snd (incrementMany times st))
    = (storedCount st + Z.of_nat (List.length times))%Z /\
  (forall k, (S k < List.length times)%nat ->
     (nth k (fst (incrementMany times st)) 0
      < nth (S k) (fst (incrementMany times st)) 0)%Z).
Proof.
  intros Hne Hlo Hhi. rewrite (incrementMany_eq times st Hlo Hhi). cbn [fst snd].
  split; [reflexivity|]. split; [|split].
  - destruct times as [|t rest]; [congruence|]. eexists. reflexivity.
  - destruct times as [|t rest]; [congruence|]. reflexivity.
  - intros k Hk.
    set (f := fun i : nat => (storedCount st + Z.of_nat i)%Z).
    assert (Hnth : forall j, (j < List.length times)%nat ->
              nth j (map f (seq 1 (List.length times))) 0%Z = f (S j)).
    { intros j Hj.
      rewrite nth_indep with (d' := f 0%nat) by (rewrite length_map, length_seq; lia).
      rewrite map_nth, seq_nth by lia. reflexivity. }
    rewrite !Hnth by lia. unfold f. lia.
Qed.

Lemma incrementCounter_sequential_witness :
  ([1; 2; 3] <> [] /\
   - 2 ^ 53 <= storedCount (Some {| count := Some 5; lastUpdated := 0 |}) + 1 /\
   storedCount (Some {| count := Some 5; lastUpdated := 0 |}) + 3 <= 2 ^ 53) /\
  fst (incrementMany [1; 2; 3] (Some {| count := Some 5; lastUpdated := 0 |}))
  = [6; 7; 8].
Proof.
  split; [split; [discriminate | simpl; lia]|].
  exact (proj1 (incrementCounter_sequential [1; 2; 3]
                  (Some {| count := Some 5; lastUpdated := 0 |})
                  ltac:(discriminate) ltac:(simpl; lia) ltac:(simpl; lia))).
Defined.

(** C3, as stated, fails: the count is a JavaScript Number, and
    [2^53 + 1] is not one; from a stored count of 2^53, three increments
    each return 2^53 and the stored count stays 2^53: two of the three
    updates are lost. *)
Lemma incrementCounter_precision_cex :
  fst (incrementMany [1; 2; 3] (Some {| count := Some (2 ^ 53); lastUpdated := 0 |}))
  = [2 ^ 53; 2 ^ 53; 2 ^ 53]
  /\ storedCount (snd (incrementMany [1; 2; 3]
                          (Some {| count := Some (2 ^ 53); lastUpdated := 0 |})))
     = 2 ^ 53.
Proof. vm_compute. split; reflexivity. Qed.

(** C8: reading a counter that was never incremented (absent document)
    yields 0, not an error. *)
Theorem getCounter_absent : getCounter (ReadOk None) = inl 0%Z.
Proof. reflexivity. Qed.

End VisitorCounterFacts.

(* ----------------------------------------------------------------- *)
(** ** The release-notes request handler *)

Module ControllerFacts.
Import Gemini Controller.

(** C4: when the warehouse returns no notes, the summarizer is never
    called and the response carries no summary and no summary error,
    whatever the [summarize] parameter. *)
Theorem getReleaseNotes_no_notes (bq : Warehouse) (gem : Summarizer) (q : Query) :
  bq (timeframeParam q) (listParam (qTypes q)) (listParam (qProducts q)) = inl [] ->
  getReleaseNotes bq gem q
  = ([], Json200 {| notes := []; filters := requestFilters q;
                    summary := None; summaryError := None |}).
Proof.
  intros Hbq. unfold getReleaseNotes. rewrite Hbq.
  simpl List.length. rewrite andb_false_r. reflexivity.
Qed.

Lemma getReleaseNotes_no_notes_witness :
  getReleaseNotes (fun _ _ _ => inl []) (fun _ => inr ThrownOther)
    {| qTimeframe := Some "7d"; qTypes := None; qProducts := None;
       qSummarize := Some "true" |}
  = ([], Json200 {| notes := [];
                    filters := requestFilters
                      {| qTimeframe := Some "7d"; qTypes := None; qProducts := None;
                         qSummarize := Some "true" |};
                    summary := None; summaryError := None |}).
Proof.
  apply getReleaseNotes_no_notes. reflexivity.
Defined.

(** C5: when the warehouse query succeeds and summary generation throws,
    the response is still a successful JSON response with the fetched
    notes and no summary; the error appears only as the [summaryError]
    field, with a message and details, when a summary was requested for
    a non-empty list of notes. *)
Theorem getReleaseNotes_summary_error (bq : Warehouse) (gem : Summarizer)
    (q : Query) (ns : list ReleaseNote) (e : Thrown) :
  bq (timeframeParam q) (listParam (qTypes q)) (listParam (qProducts q)) = inl ns ->
  gem ns = inr e ->
  exists body,
    snd (getReleaseNotes bq gem q) = Json200 body /\
    notes body = ns /\
    summary body = None /\
    summaryError body =
      (if summarizeParam q && (0 <? List.length ns)%nat
       then Some {| seMessage := messageOr e "Unknown error generating summary";
                    seDetails := summaryErrorDetails |}
       else None).
Proof.
  intros Hbq Hgem. unfold getReleaseNotes. rewrite Hbq.
  destruct (summarizeParam q && (0 <? List.length ns)%nat).
  - rewrite Hgem. eexists. split; [reflexivity|]. repeat split.
  - eexists. split; [reflexivity|]. repeat split.
Qed.

Lemma getReleaseNotes_summary_error_witness :
  exists body,
    snd (getReleaseNotes
           (fun _ _ _ => inl [{| product_name := "BigQuery";
                                 release_note_type := "FEATURE";
                                 description := "d"; published_at := "2026-10-01" |}])
           (fun _ => inr (ThrownError "Request timed out"))
           {| qTimeframe := None; qTypes := None; qProducts := None;
              qSummarize := Some "true" |})
    = Json200 body /\
    summaryError body = Some {| seMessage := "Request timed out";
                                seDetails := summaryErrorDetails |}.
Proof.
  destruct (getReleaseNotes_summary_error
              (fun _ _ _ => inl [{| product_name := "BigQuery";
                                    release_note_type := "FEATURE";
                                    description := "d"; published_at := "2026-10-01" |}])
              (fun _ => inr (ThrownError "Request timed out"))
              {| qTimeframe := None; qTypes := None; qProducts := None;
                 qSummarize := Some "true" |}
              [{| product_name := "BigQuery"; release_note_type := "FEATURE";
                  description := "d"; published_at := "2026-10-01" |}]
              (ThrownError "Request timed out") eq_refl eq_refl)
    as (body & H1 & _ & _ & H4).
  exists body. split; [exact H1|]. rewrite H4. reflexivity.
Defined.

End ControllerFacts.

(* ----------------------------------------------------------------- *)
(** ** Calendar arithmetic of [Date] *)

Module JsDateFacts.
Import JsDate.
Open Scope Z_scope.

Lemma all_from_spec (f : Z -> bool) (n : nat) :
  forall start, all_from f start n = true ->
  forall x, start <= x < start + Z.of_nat n -> f x = true.
Proof.
  induction n as [|k IH]; intros start H x Hx; [lia|].
  simpl in H. apply andb_true_iff in H as [Hs Hrest].
  destruct (Z.eq_dec x start) as [->|Hne]; [exact Hs|].
  apply (IH (start + 1)); [exact Hrest | lia].
Qed.

(** Checked on each of the 146097 days of an era. *)
Lemma era_fields_all : all_from era_fields_ok 0 era_length = true.
Proof. vm_compute. reflexivity. Qed.

Lemma era_length_Z : Z.of_nat era_length = 146097.
Proof. vm_compute. reflexivity. Qed.

Lemma era_fields_bounds (doe : Z) :
  0 <= doe < 146097 ->
  let '(yoe, doy, mp, d) := era_fields doe in
  0 <= yoe <= 399 /\ 0 <= mp <= 11 /\ 1 <= d <= 31.
Proof.
  intros Hd.
  pose proof (all_from_spec _ _ _ era_fields_all doe ltac:(rewrite era_length_Z; lia)) as H.
  unfold era_fields_ok in H. destruct (era_fields doe) as [[[yoe doy] mp] d].
  repeat rewrite andb_true_iff in H. rewrite !Z.leb_le in H. lia.
Qed.

(** [days_from_civil] undoes [civil_from_days]; months are 1..12 and
    days 1..31. *)
Lemma civil_roundtrip (z : Z) :
  let '(y, m, d) := civil_from_days z in
  days_from_civil y m d = z /\ 1 <= m <= 12 /\ 1 <= d <= 31.
Proof.
  unfold civil_from_days. cbv zeta.
  set (z' := z + 719468). set (era := z' / 146097).
  set (doe := z' - era * 146097).
  assert (Hdoe : 0 <= doe < 146097).
  { unfold doe, era. pose proof (Z.div_mod z' 146097 ltac:(lia)).
    pose proof (Z.mod_pos_bound z' 146097 ltac:(lia)). lia. }
  pose proof (era_fields_bounds doe Hdoe) as Hb. unfold era_fields in Hb. cbv zeta in Hb.
  set (yoe := (doe - doe / 1460 + doe / 36524 - doe / 146096) / 365) in *.
  set (doy := doe - (365 * yoe + yoe / 4 - yoe / 100)) in *.
  set (mp := (5 * doy + 2) / 153) in *.
  set (d := doy - (153 * mp + 2) / 5 + 1) in *.
  destruct Hb as (Hyoe & Hmp & Hd).
  assert (Hera : (yoe + era * 400) / 400 = era).
  { rewrite Z.div_add by lia. rewrite Z.div_small by lia. lia. }
  unfold days_from_civil. cbv zeta.
  destruct (mp <? 10) eqn:Hlt.
  - apply Z.ltb_lt in Hlt.
    replace (mp + 3 <=? 2) with false by (symmetry; apply Z.leb_gt; lia).
    replace (2 <? mp + 3) with true by (symmetry; apply Z.ltb_lt; lia).
    rewrite Hera. replace (yoe + era * 400 - era * 400) with yoe by ring.
    replace (mp + 3 - 3) with mp by ring.
    split; [|lia]. unfold d, doy, doe, z'. lia.
  - apply Z.ltb_ge in Hlt.
    replace (mp - 9 <=? 2) with true by (symmetry; apply Z.leb_le; lia).
    replace (yoe + era * 400 + 1 - 1) with (yoe + era * 400) by ring.
    rewrite Hera. replace (yoe + era * 400 - era * 400) with yoe by ring.
    replace (2 <? mp - 9) with false by (symmetry; apply Z.ltb_ge; lia).
    replace (mp - 9 + 9) with mp by ring.
    split; [|lia]. unfold d, doy, doe, z'. lia.
Qed.

(** [days_from_civil] is linear in the day of the month. *)
Lemma days_from_civil_day (y m d : Z) :
  days_from_civil y m d = days_from_civil y m 1 + d - 1.
Proof. unfold days_from_civil. cbv zeta. lia. Qed.

(** [setDate(getDate() - n)] moves the instant back by [n] whole days,
    keeping the time of day. *)
Lemma setDate_minus (tza t n : Z) :
  let '(_, _, d) := civil_from_days (Day (LocalTime tza t)) in
  setDate tza (Some t) (Some (d - n)) = TimeClip (t - n * msPerDay).
Proof.
  unfold setDate. set (lt := LocalTime tza t).
  pose proof (civil_roundtrip (Day lt)) as Hr.
  destruct (civil_from_days (Day lt)) as [[y m] d] eqn:E.
  destruct Hr as (Hz & Hm & Hd).
  f_equal. unfold MakeDay. cbv zeta.
  rewrite (Z.div_small (m - 1) 12) by lia.
  rewrite (Z.mod_small (m - 1) 12) by lia.
  replace (y + 0) with y by ring. replace (m - 1 + 1) with m by ring.
  rewrite (days_from_civil_day y m d) in Hz.
  unfold MakeDate, UTC, TimeWithinDay, Day in *.
  pose proof (Z.div_mod lt msPerDay ltac:(unfold msPerDay; lia)).
  unfold lt, LocalTime in *. lia.
Qed.

Lemma Day_minus (t n : Z) : Day (t - n * msPerDay) = Day t - n.
Proof.
  unfold Day. replace (t - n * msPerDay) with (t + (- n) * msPerDay) by ring.
  rewrite Z.div_add by (unfold msPerDay; lia). ring.
Qed.

End JsDateFacts.

Module DecimalFacts.
Import JsString ParseInt Decimal.
Open Scope Z_scope.

Lemma digit_cases (d : Z) : is_digit d ->
  d = 0 \/ d = 1 \/ d = 2 \/ d = 3 \/ d = 4 \/ d = 5 \/ d = 6 \/ d = 7 \/ d = 8 \/ d = 9.
Proof. unfold is_digit. lia. Qed.

Ltac digit_cases H :=
  destruct (digit_cases _ H) as [->|[->|[->|[->|[->|[->|[->|[->|[->| ->]]]]]]]]].

Ltac eval_digit_char :=
  repeat match goal with
  | |- context [digit_char ?d] =>
      let c := eval vm_compute in (digit_char d) in change (digit_char d) with c
  end.

Ltac eval_digitValue :=
  repeat match goal with
  | |- context [digitValue ?r ?c] =>
      let v := eval vm_compute in (digitValue r c) in change (digitValue r c) with v
  end.

Ltac finish_digits HP :=
  eval_digitValue; cbn [Z.mul]; rewrite HP; cbn [Nat.add];
  destruct (fold_left _ _ _); reflexivity.

Lemma digit_not_d (d : Z) : is_digit d -> Ascii.eqb (digit_char d) "d" = false.
Proof. intros H. digit_cases H; reflexivity. Qed.

Lemma is_js_space_digit (d : Z) : is_digit d -> is_js_space (digit_char d) = false.
Proof. intros H. digit_cases H; reflexivity. Qed.

(** [replace('d', '')] removes the "d" after the digits. *)
Lemma replaceFirstD_digits (ds : list Z) :
  Forall is_digit ds -> replaceFirstD (decimalString ds ++ "d") = decimalString ds.
Proof.
  induction 1 as [|d ds Hd Hds IH]; [reflexivity|].
  cbn [decimalString String.append replaceFirstD].
  rewrite (digit_not_d d Hd), IH. reflexivity.
Qed.

Lemma digitsPrefix_digits (ds : list Z) :
  Forall is_digit ds -> forall acc cnt,
  digitsPrefix 10 acc cnt (decimalString ds)
  = (fold_left (fun a d => a * 10 + d) ds acc, (cnt + List.length ds)%nat).
Proof.
  induction 1 as [|d ds Hd Hds IH]; intros acc cnt.
  - simpl. rewrite Nat.add_0_r. reflexivity.
  - cbn [decimalString fold_left List.length].
    transitivity (digitsPrefix 10 (acc * 10 + d) (S cnt) (decimalString ds)).
    + digit_cases Hd; reflexivity.
    + rewrite IH. f_equal. lia.
Qed.

(** [parseInt] reads a non-empty run of decimal digits as its value. *)
Lemma parseInt_digits (ds : list Z) :
  ds <> [] -> Forall is_digit ds ->
  parseInt (decimalString ds) = Some (decimalValue ds).
Proof.
  intros Hne Hall. destruct Hall as [|d ds Hd Hds]; [congruence|].
  unfold parseInt, decimalValue. cbn [fold_left].
  pose proof (digitsPrefix_digits ds Hds) as HP.
  cbn [decimalString trim_start]. rewrite (is_js_space_digit d Hd).
  remember (decimalString ds) as rest eqn:Hrest.
  digit_cases Hd; eval_digit_char; cbn; [|subst rest; finish_digits HP ..].
  subst rest. destruct Hds as [|d2 ds2 Hd2 Hds2]; [reflexivity|].
  pose proof (digitsPrefix_digits ds2 Hds2) as HP2.
  cbn [decimalString]. remember (decimalString ds2) as rest eqn:Hrest.
  digit_cases Hd2; eval_digit_char; cbn; subst rest; finish_digits HP2.
Qed.

End DecimalFacts.

Module BigQueryFacts.
Import JsDate ParseInt BigQuery JsDateFacts Decimal DecimalFacts.
Open Scope Z_scope.

Lemma formatDate_some (tza t : Z) :
  formatDate tza (Some t) = ymdString (civil_from_days (localDay tza t)).
Proof.
  unfold formatDate, localDay, getFullYear, getMonth, getDate, civil_local.
  cbn [option_map]. destruct (civil_from_days (Day (LocalTime tza t))) as [[y m] d].
  cbn [nadd]. replace (m - 1 + 1) with m by ring. reflexivity.
Qed.

(** When the timeframe parses to [n] days and [now - n] days is a valid
    date, the range runs from the local day [n] days before [now] to the
    local day of [now]. *)
Lemma getDateRange_days (tza now n : Z) (tf : string) :
  parseInt (replaceFirstD tf) = Some n ->
  Z.abs (now - n * msPerDay) <= maxTime ->
  getDateRange tza now tf
  = (ymdString (civil_from_days (localDay tza now - n)),
     ymdString (civil_from_days (localDay tza now))).
Proof.
  intros Hp Hclip. unfold getDateRange. rewrite Hp.
  pose proof (setDate_minus tza now n) as Hs.
  unfold getDate, civil_local. cbn [option_map].
  destruct (civil_from_days (Day (LocalTime tza now))) as [[y m] d] eqn:E.
  cbn [nsub]. rewrite Hs. unfold TimeClip.
  replace (Z.abs (now - n * msPerDay) <=? maxTime) with true
    by (symmetry; apply Z.leb_le; exact Hclip).
  rewrite !formatDate_some. unfold localDay, LocalTime.
  replace (now - n * msPerDay + tza) with (now + tza - n * msPerDay) by ring.
  rewrite Day_minus. reflexivity.
Qed.

(** When the timeframe parses to [n] days and [now - n] days is outside
    the range of valid dates, the start date is an invalid Date, written
    "NaN-NaN-NaN", and the end date is the local day of [now]. *)
Lemma getDateRange_days_out (tza now n : Z) (tf : string) :
  parseInt (replaceFirstD tf) = Some n ->
  maxTime < Z.abs (now - n * msPerDay) ->
  getDateRange tza now tf
  = ("NaN-NaN-NaN", ymdString (civil_from_days (localDay tza now))).
Proof.
  intros Hp Hclip. unfold getDateRange. rewrite Hp.
  pose proof (setDate_minus tza now n) as Hs.
  unfold getDate at 1, civil_local. cbn [option_map].
  destruct (civil_from_days (Day (LocalTime tza now))) as [[y m] d] eqn:E.
  cbn [nsub]. rewrite Hs. unfold TimeClip.
  replace (Z.abs (now - n * msPerDay) <=? maxTime) with false
    by (symmetry; apply Z.leb_gt; exact Hclip).
  rewrite formatDate_some. reflexivity.
Qed.

(** The range computed on a few instants, checked against the calendar:
    across the end of February of a leap year, and with a local time
    five hours behind UTC that is still on the previous day. *)
Example getDateRange_leap_sample :
  getDateRange 0 1709640000000 "7d" = ("2024-02-27", "2024-03-05")
  /\ getDateRange 0 1709640000000 "30d" = ("2024-02-04", "2024-03-05")
  /\ getDateRange (-18000000) 1709607600000 "7d" = ("2024-02-26", "2024-03-04").
Proof. vm_compute. repeat split. Qed.

(** C7: for the timeframes "7d", "30d" and "90d" (N = 7, 30, 90) and any
    valid instant [now] from the epoch on, the end date is the local
    calendar day of [now] and the start date the local calendar day N days
    before it, both written YYYY-MM-DD; the start date is the calendar day
    of the instant [now] minus N days. *)
Theorem getDateRange_timeframe (tza now : Z) (tf : string) (n : Z) :
  In (tf, n) [("7d", 7); ("30d", 30); ("90d", 90)] ->
  0 <= now <= maxTime ->
  getDateRange tza now tf
  = (ymdString (civil_from_days (localDay tza now - n)),
     ymdString (civil_from_days (localDay tza now)))
  /\ fst (getDateRange tza now tf) = formatDate tza (Some (now - n * msPerDay)).
Proof.
  intros Hin Hnow.
  assert (Hp : parseInt (replaceFirstD tf) = Some n /\ 0 <= n <= 90).
  { simpl in Hin.
    destruct Hin as [E|[E|[E|[]]]]; injection E as <- <-; split;
      (reflexivity || lia). }
  destruct Hp as [Hp Hn].
  assert (Hclip : Z.abs (now - n * msPerDay) <= maxTime)
    by (unfold maxTime, msPerDay in *; lia).
  rewrite (getDateRange_days tza now n tf Hp Hclip). split; [reflexivity|].
  simpl fst. rewrite formatDate_some. unfold localDay, LocalTime.
  replace (now - n * msPerDay + tza) with (now + tza - n * msPerDay) by ring.
  rewrite Day_minus. reflexivity.
Qed.

Lemma getDateRange_timeframe_witness :
  (In ("7d", 7) [("7d", 7); ("30d", 30); ("90d", 90)] /\ 0 <= 1760486400000 <= maxTime)
  /\ getDateRange 0 1760486400000 "7d"
     = (ymdString (civil_from_days (localDay 0 1760486400000 - 7)),
        ymdString (civil_from_days (localDay 0 1760486400000)))
  /\ fst (getDateRange 0 1760486400000 "7d")
     = formatDate 0 (Some (1760486400000 - 7 * msPerDay)).
Proof.
  split.
  - split; [simpl; left; reflexivity | unfold maxTime; lia].
  - apply (getDateRange_timeframe 0 1760486400000 "7d" 7);
      [simpl; left; reflexivity | unfold maxTime; lia].
Defined.

(** C9 (amended): the timeframe is not checked against "7d", "30d" and
    "90d". An absent timeframe becomes "7d"; absent types or products give
    no [IN UNNEST] line in the query; and for any timeframe made of
    decimal digits followed by "d", with day count [n]: when [now - n]
    days is within the range of valid dates, the range runs from the local
    day [n] days before [now] to the local day of [now]; otherwise the
    start date is "NaN-NaN-NaN" and the end date is the local day of
    [now]. *)
Theorem getDateRange_any_days (tza now : Z) (ds : list Z) :
  ds <> [] -> Forall is_digit ds ->
  (forall q, Controller.qTimeframe q = None -> Controller.timeframeParam q = "7d")
  /\ typesClause (Controller.listParam None) = ""
  /\ productsClause (Controller.listParam None) = ""
  /\ getDateRange tza now (decimalString ds ++ "d")
     = (if Z.abs (now - decimalValue ds * msPerDay) <=? maxTime
        then ymdString (civil_from_days (localDay tza now - decimalValue ds))
        else "NaN-NaN-NaN",
        ymdString (civil_from_days (localDay tza now))).
Proof.
  intros Hne Hall.
  split; [intros q Hq; unfold Controller.timeframeParam; rewrite Hq; reflexivity|].
  split; [reflexivity|]. split; [reflexivity|].
  assert (Hp : parseInt (replaceFirstD (decimalString ds ++ "d")) = Some (decimalValue ds)).
  { rewrite (replaceFirstD_digits ds Hall). exact (parseInt_digits ds Hne Hall). }
  destruct (Z.abs (now - decimalValue ds * msPerDay) <=? maxTime) eqn:Hclip.
  - apply (getDateRange_days tza now (decimalValue ds)); [exact Hp | apply Z.leb_le; exact Hclip].
  - apply (getDateRange_days_out tza now (decimalValue ds)); [exact Hp | apply Z.leb_gt; exact Hclip].
Qed.

Lemma getDateRange_any_days_witness :
  ([1; 5] <> [] /\ Forall is_digit [1; 5])
  /\ getDateRange 0 1760486400000 (decimalString [1; 5] ++ "d")
     = (if Z.abs (1760486400000 - decimalValue [1; 5] * msPerDay) <=? maxTime
        then ymdString (civil_from_days (localDay 0 1760486400000 - decimalValue [1; 5]))
        else "NaN-NaN-NaN",
        ymdString (civil_from_days (localDay 0 1760486400000))).
Proof.
  assert (Hd : Forall is_digit [1; 5]) by (repeat constructor; unfold is_digit; lia).
  split; [split; [discriminate | exact Hd]|].
  apply (getDateRange_any_days 0 1760486400000 [1; 5]); [discriminate | exact Hd].
Defined.

(** C9 (counterexample): "200000000d" has the form digits-then-"d", but
    200000000 days before 2025-10-15 lies outside the range of valid
    dates: the start date is an invalid Date and is written
    "NaN-NaN-NaN". *)
Lemma getDateRange_huge_days_cex :
  decimalString [2; 0; 0; 0; 0; 0; 0; 0; 0] ++ "d" = "200000000d"
  /\ getDateRange 0 1760486400000 "200000000d" = ("NaN-NaN-NaN", "2025-10-15").
Proof. vm_compute. split; reflexivity. Qed.

End BigQueryFacts.

(* ----------------------------------------------------------------- *)
(** ** The product list of the prompt *)

Module ProductsFacts.
Import Gemini GeminiRequest.

Lemma existsb_eqb_In (x : string) (acc : list string) :
  existsb (String.eqb x) acc = true <-> In x acc.
Proof.
  rewrite existsb_exists. split.
  - intros [y [Hy Heq]]. apply String.eqb_eq in Heq. now subst.
  - intros H. exists x. split; [exact H | apply String.eqb_refl].
Qed.

Lemma setFromList_acc (xs acc : list string) :
  NoDup acc ->
  NoDup (fold_left (fun acc x => if existsb (String.eqb x) acc then acc
                                 else (acc ++ [x])%list) xs acc) /\
  (forall p, In p (fold_left (fun acc x => if existsb (String.eqb x) acc then acc
                                           else (acc ++ [x])%list) xs acc)
             <-> In p acc \/ In p xs).
Proof.
  revert acc. induction xs as [|x xs IH]; intros acc Hnd.
  - simpl. split; [exact Hnd|]. intros p. tauto.
  - simpl. destruct (existsb (String.eqb x) acc) eqn:E.
    + apply existsb_eqb_In in E.
      destruct (IH acc Hnd) as [H1 H2]. split; [exact H1|].
      intros p. rewrite H2. split; [tauto|].
      intros [H|[<-|H]]; tauto.
    + assert (Hn : ~ In x acc) by (intros H; apply existsb_eqb_In in H; congruence).
      assert (Hnd' : NoDup (acc ++ [x])).
      { apply Permutation_NoDup with (l := x :: acc).
        - apply Permutation_cons_append.
        - constructor; assumption. }
      destruct (IH _ Hnd') as [H1 H2]. split; [exact H1|].
      intros p. rewrite H2, in_app_iff. simpl. tauto.
Qed.

(** The product list of the prompt ([[...new Set(notes.map(...))]]) has
    no duplicates, holds exactly the product names of the notes, and is
    no longer than the list of notes. *)
Theorem distinctProducts_spec (notes : list ReleaseNote) :
  NoDup (distinctProducts notes) /\
  (forall p, In p (distinctProducts notes) <-> exists n, In n notes /\ product_name n = p) /\
  (List.length (distinctProducts notes) <= List.length notes)%nat.
Proof.
  unfold distinctProducts, setFromList.
  destruct (setFromList_acc (map product_name notes) [] (NoDup_nil _)) as [H1 H2].
  split; [exact H1|]. split.
  - intros p. rewrite H2, in_map_iff. simpl. split.
    + intros [[]|[n [Hn Hin]]]. exists n. auto.
    + intros [n [Hin Hn]]. right. exists n. auto.
  - rewrite <- (length_map product_name notes).
    apply NoDup_incl_length; [exact H1|].
    intros p Hp. apply H2 in Hp. destruct Hp as [[]|Hp]. exact Hp.
Qed.

End ProductsFacts.

(* ----------------------------------------------------------------- *)
(** ** The model chosen by the configuration *)

Module ConfigExtraFacts.
Import Gemini.

Lemma existsb_valid (m : string) :
  existsb (String.eqb m) Config.VALID_GEMINI_MODELS = true <-> In m Config.VALID_GEMINI_MODELS.
Proof. apply ProductsFacts.existsb_eqb_In. Qed.

(** The model chosen by the configuration module is always in
    [VALID_GEMINI_MODELS]: a listed name is kept without a warning, any
    other name is replaced by "gemini-1.5-pro" with one warning, and an
    unset variable gives "gemini-1.5-pro" without a warning. *)
Theorem geminiModel_allowed (env : option string) :
  In (fst (Config.geminiModel env)) Config.VALID_GEMINI_MODELS /\
  (In (envModel env) Config.VALID_GEMINI_MODELS ->
   Config.geminiModel env = (envModel env, [])) /\
  (~ In (envModel env) Config.VALID_GEMINI_MODELS ->
   exists w, Config.geminiModel env = ("gemini-1.5-pro", [Warn w])) /\
  Config.geminiModel None = ("gemini-1.5-pro", []).
Proof.
  unfold Config.geminiModel.
  destruct (existsb (String.eqb (envModel env)) Config.VALID_GEMINI_MODELS) eqn:E.
  - apply existsb_valid in E. simpl negb. cbv iota.
    split; [exact E|]. split; [reflexivity|]. split; [tauto | reflexivity].
  - assert (Hn : ~ In (envModel env) Config.VALID_GEMINI_MODELS)
      by (intros H; apply existsb_valid in H; congruence).
    simpl negb. cbv iota.
    split; [simpl; left; reflexivity|]. split; [tauto|].
    split; [intros _; eexists; reflexivity | reflexivity].
Qed.

(** In the configuration copy that accepts experimental names, either the
    configured name is kept (it is listed or experimental) and only
    informational lines are logged, or it is neither, and it is replaced
    by "gemini-1.5-pro" with a single warning. *)
Theorem geminiModel_experimental_allowed (env : option string) :
  let '(m, logs) := ConfigWithExperimental.geminiModel env in
  (m = envModel env
   /\ (In m Config.VALID_GEMINI_MODELS \/ ConfigWithExperimental.isExperimentalModel m = true)
   /\ Forall (fun l => match l with Warn _ => False | Log _ => True end) logs)
  \/ (m = "gemini-1.5-pro" /\ exists w, logs = [Warn w]
      /\ ~ In (envModel env) Config.VALID_GEMINI_MODELS
      /\ ConfigWithExperimental.isExperimentalModel (envModel env) = false).
Proof.
  unfold ConfigWithExperimental.geminiModel, ConfigWithExperimental.VALID_GEMINI_MODELS.
  destruct (existsb (String.eqb (envModel env)) Config.VALID_GEMINI_MODELS) eqn:E;
  destruct (ConfigWithExperimental.isExperimentalModel (envModel env)) eqn:X;
  simpl negb; simpl andb; cbv iota.
  - left. split; [reflexivity|]. split; [left; apply existsb_valid, E|].
    repeat constructor.
  - left. split; [reflexivity|]. split; [left; apply existsb_valid, E|].
    repeat constructor.
  - left. split; [reflexivity|]. split; [right; exact X|]. repeat constructor.
  - right. split; [reflexivity|]. eexists. split; [reflexivity|].
    split; [intros H; apply existsb_valid in H; congruence | reflexivity].
Qed.

End ConfigExtraFacts.

(* ----------------------------------------------------------------- *)
(** ** [GeminiService.generateSummary]: requests, results and errors *)

Module GeminiExtraFacts.
Import Gemini GeminiRequest Samples.

Lemma withModel_reply (apiKey m : string) (api : Api) (notes : list ReleaseNote) :
  truthy apiKey = true -> truthy m = true ->
  generateSummaryWithModel apiKey api notes m
  = ([m], match api m notes with
          | ReplyEmpty => inr (wrap "Empty response from Gemini API")
          | ReplyData t =>
              let text := match t with Some x => x | None => EmptyString end in
              if negb (truthy text) then
                inr (wrap "Could not extract text from the Gemini API response")
              else
                inl {| markdown := text;
                       keyFeatures := extractKeyFeatures text;
                       industryUseCases := extractIndustryUseCases text |}
          | AxiosError status code message =>
              inr (axiosErrorMessage m status code message)
          | OtherError message => inr (wrap message)
          end).
Proof. intros Hk Hm. unfold generateSummaryWithModel. rewrite Hk, Hm. reflexivity. Qed.

Lemma generateSummary_first (apiKey m : string) (api : Api) (notes : list ReleaseNote) r :
  isApiKeyConfigured apiKey = true ->
  generateSummaryWithModel apiKey api notes m = ([m], r) ->
  generateSummary apiKey m api notes =
  match r with
  | inl summary => ([m], inl summary)
  | inr err =>
      if isExperimentalModel m && includes err "Could not extract text" then
        let (tried', r') :=
          generateSummaryWithModel apiKey api notes stable_fallback_model in
        ((m :: tried')%list, r')
      else if includes err "Cannot find module" then
        ([m], inr ("Backend dependency missing. Please run " ++ DQ
                   ++ "cd backend && npm install" ++ DQ
                   ++ " to install required dependencies."))
      else ([m], inr err)
  end.
Proof.
  intros Hk H. unfold generateSummary. rewrite Hk. simpl negb. cbv iota. rewrite H.
  reflexivity.
Qed.

(** With an API key of at most 20 characters, [generateSummary] sends no
    request and rejects with the configuration error. *)
Theorem generateSummary_short_key (apiKey m : string) (api : Api)
    (notes : list ReleaseNote) :
  (String.length apiKey <= 20)%nat ->
  generateSummary apiKey m api notes
  = ([], inr "Gemini API key is not properly configured. Please set GEMINI_API_KEY in your .env file.").
Proof.
  intros Hlen. unfold generateSummary, isApiKeyConfigured.
  replace (20 <? String.length apiKey)%nat with false
    by (symmetry; apply Nat.ltb_ge; exact Hlen).
  rewrite andb_false_r. reflexivity.
Qed.

Lemma generateSummary_short_key_witness :
  (String.length "short-key" <= 20)%nat
  /\ generateSummary "short-key" "gemini-1.5-pro" (fun _ _ => ReplyEmpty) []
     = ([], inr "Gemini API key is not properly configured. Please set GEMINI_API_KEY in your .env file.").
Proof.
  split; [simpl; lia|].
  apply (generateSummary_short_key "short-key" "gemini-1.5-pro" (fun _ _ => ReplyEmpty) []).
  simpl. lia.
Defined.

(** [generateSummary] sends at most two requests: none, one to the
    configured model, or one to the configured model and then one to
    "gemini-1.5-pro", the second only when the configured model is
    experimental. *)
Theorem generateSummary_requests (apiKey m : string) (api : Api)
    (notes : list ReleaseNote) :
  fst (generateSummary apiKey m api notes) = []
  \/ fst (generateSummary apiKey m api notes) = [m]
  \/ (fst (generateSummary apiKey m api notes) = [m; stable_fallback_model]
      /\ isExperimentalModel m = true).
Proof.
  unfold generateSummary.
  destruct (isApiKeyConfigured apiKey) eqn:Hk; [|left; reflexivity].
  pose proof (GeminiFacts.configured_key_truthy apiKey Hk) as Hkt.
  simpl negb. cbv iota.
  destruct (truthy m) eqn:Hm.
  - rewrite (withModel_reply apiKey m api notes Hkt Hm).
    destruct (api m notes); cbv zeta;
      try (right; left; reflexivity);
      repeat match goal with
      | |- context [if ?b then _ else _] =>
          lazymatch b with
          | context [isExperimentalModel] => destruct b eqn:?
          | context [includes] => destruct b
          | context [truthy] => destruct b
          end
      end;
      try (right; left; reflexivity);
      (rewrite (withModel_reply apiKey stable_fallback_model api notes Hkt eq_refl);
       right; right; split; [reflexivity|];
       match goal with H : _ && _ = true |- _ => apply andb_true_iff in H; apply H end).
  - unfold generateSummaryWithModel at 1. rewrite Hkt, Hm. simpl negb. cbv iota.
    assert (Hx : isExperimentalModel m = false)
      by (unfold isExperimentalModel; rewrite Hm; reflexivity).
    rewrite Hx. simpl andb. cbv iota.
    destruct (includes _ "Cannot find module"); left; reflexivity.
Qed.

(** With a configured key and model, a reply carrying a non-empty text
    resolves after one request with that text as markdown and the key
    features and industry use cases extracted from it. *)
Theorem generateSummary_success (apiKey m t : string) (api : Api)
    (notes : list ReleaseNote) :
  isApiKeyConfigured apiKey = true -> truthy m = true ->
  api m notes = ReplyData (Some t) -> truthy t = true ->
  generateSummary apiKey m api notes
  = ([m], inl {| markdown := t; keyFeatures := extractKeyFeatures t;
                 industryUseCases := extractIndustryUseCases t |}).
Proof.
  intros Hk Hm Ha Ht.
  pose proof (GeminiFacts.configured_key_truthy apiKey Hk) as Hkt.
  assert (Hfirst : generateSummaryWithModel apiKey api notes m
    = ([m], inl {| markdown := t; keyFeatures := extractKeyFeatures t;
                   industryUseCases := extractIndustryUseCases t |})).
  { rewrite (withModel_reply apiKey m api notes Hkt Hm), Ha. cbv zeta.
    rewrite Ht. reflexivity. }
  rewrite (generateSummary_first apiKey m api notes _ Hk Hfirst). reflexivity.
Qed.

Lemma generateSummary_success_witness :
  (isApiKeyConfigured sample_key = true /\ truthy "gemini-1.5-pro" = true
   /\ (fun (_ : string) (_ : list ReleaseNote) => ReplyData (Some "## Summary")) "gemini-1.5-pro" []
      = ReplyData (Some "## Summary")
   /\ truthy "## Summary" = true)
  /\ generateSummary sample_key "gemini-1.5-pro" (fun _ _ => ReplyData (Some "## Summary")) []
     = (["gemini-1.5-pro"],
        inl {| markdown := "## Summary"; keyFeatures := extractKeyFeatures "## Summary";
               industryUseCases := extractIndustryUseCases "## Summary" |}).
Proof.
  split; [repeat split; reflexivity|].
  apply (generateSummary_success sample_key "gemini-1.5-pro" "## Summary"
           (fun _ _ => ReplyData (Some "## Summary")) []);
    reflexivity.
Defined.

Lemma axiosErrorMessage_other (m : string) (status : option Z) code msg :
  status <> Some 403%Z -> status <> Some 404%Z ->
  axiosErrorMessage m status code msg
  = if opt_eqb code "ECONNREFUSED" || opt_eqb code "ENOTFOUND" then
      "Network error: Unable to connect to the Gemini API"
    else if opt_eqb code "ETIMEDOUT" then
      "Request timed out: The Gemini API took too long to respond"
    else wrap msg.
Proof.
  intros H3 H4. unfold axiosErrorMessage.
  destruct status as [z|]; [|reflexivity].
  destruct z as [|p|p]; try reflexivity.
  repeat (destruct p as [p|p|]; try reflexivity; try congruence).
Qed.

(** With a configured key and model, an HTTP error of the first request
    is reported without a fallback request: status 403 as "Access denied",
    the codes ECONNREFUSED and ENOTFOUND as a network error, ETIMEDOUT as
    a timeout (the status being neither 403 nor 404). *)
Theorem generateSummary_typed_errors (apiKey m : string) (api : Api)
    (notes : list ReleaseNote) (status : option Z) (code : option string)
    (msg : string) :
  isApiKeyConfigured apiKey = true -> truthy m = true ->
  api m notes = AxiosError status code msg ->
  (status = Some 403%Z ->
   generateSummary apiKey m api notes
   = ([m], inr "Access denied: API key may be invalid or lacks permissions for the specified model")) /\
  (status <> Some 403%Z -> status <> Some 404%Z ->
   (code = Some "ECONNREFUSED" \/ code = Some "ENOTFOUND") ->
   generateSummary apiKey m api notes
   = ([m], inr "Network error: Unable to connect to the Gemini API")) /\
  (status <> Some 403%Z -> status <> Some 404%Z -> code = Some "ETIMEDOUT" ->
   generateSummary apiKey m api notes
   = ([m], inr "Request timed out: The Gemini API took too long to respond")).
Proof.
  intros Hk Hm Ha.
  pose proof (GeminiFacts.configured_key_truthy apiKey Hk) as Hkt.
  assert (Hfirst : generateSummaryWithModel apiKey api notes m
                   = ([m], inr (axiosErrorMessage m status code msg))).
  { rewrite (withModel_reply apiKey m api notes Hkt Hm), Ha. reflexivity. }
  split; [|split].
  - intros Hs. rewrite (generateSummary_first apiKey m api notes _ Hk Hfirst), Hs.
    cbn iota. rewrite andb_false_r. reflexivity.
  - intros H3 H4 Hc. rewrite (generateSummary_first apiKey m api notes _ Hk Hfirst).
    rewrite axiosErrorMessage_other by assumption.
    destruct Hc as [-> | ->]; cbv iota; rewrite andb_false_r; reflexivity.
  - intros H3 H4 Hc. rewrite (generateSummary_first apiKey m api notes _ Hk Hfirst).
    rewrite axiosErrorMessage_other by assumption.
    subst code. rewrite andb_false_r. reflexivity.
Qed.

Lemma generateSummary_typed_errors_witness :
  (isApiKeyConfigured sample_key = true /\ truthy "gemini-2.0-flash" = true)
  /\ (generateSummary sample_key "gemini-2.0-flash"
        (fun _ _ => AxiosError (Some 403%Z) None "Request failed") []
      = (["gemini-2.0-flash"], inr "Access denied: API key may be invalid or lacks permissions for the specified model")).
Proof.
  split; [split; reflexivity|].
  refine (proj1 (generateSummary_typed_errors sample_key "gemini-2.0-flash"
           (fun _ _ => AxiosError (Some 403%Z) None "Request failed") []
           (Some 403%Z) None "Request failed" _ _ _) _);
    reflexivity.
Defined.

Lemma includes_cons (s sub : string) (c : ascii) :
  includes s sub = true -> includes (String c s) sub = true.
Proof.
  unfold includes. rewrite index_cons.
  destruct (prefix sub (String c s)); [reflexivity|].
  destruct (index 0 sub s); [reflexivity | discriminate].
Qed.

Lemma includes_app_r (p s sub : string) :
  includes s sub = true -> includes (p ++ s) sub = true.
Proof.
  intros H. induction p as [|c p IH]; [exact H|]. apply includes_cons, IH.
Qed.

(** When the configured model is not experimental and the request fails
    with an error whose message contains "Cannot find module", the error
    is replaced by the instruction to install the backend dependencies. *)
Theorem generateSummary_missing_module (apiKey m msg : string) (api : Api)
    (notes : list ReleaseNote) :
  isApiKeyConfigured apiKey = true -> truthy m = true ->
  isExperimentalModel m = false ->
  api m notes = OtherError msg -> includes msg "Cannot find module" = true ->
  generateSummary apiKey m api notes
  = ([m], inr ("Backend dependency missing. Please run " ++ DQ
               ++ "cd backend && npm install" ++ DQ
               ++ " to install required dependencies.")).
Proof.
  intros Hk Hm Hx Ha Hi.
  pose proof (GeminiFacts.configured_key_truthy apiKey Hk) as Hkt.
  assert (Hfirst : generateSummaryWithModel apiKey api notes m = ([m], inr (wrap msg))).
  { rewrite (withModel_reply apiKey m api notes Hkt Hm), Ha. reflexivity. }
  rewrite (generateSummary_first apiKey m api notes _ Hk Hfirst), Hx. simpl andb.
  cbv iota. unfold wrap. rewrite includes_app_r by exact Hi. reflexivity.
Qed.

Lemma generateSummary_missing_module_witness :
  (isApiKeyConfigured sample_key = true /\ truthy "gemini-1.5-pro" = true
   /\ isExperimentalModel "gemini-1.5-pro" = false
   /\ includes "Cannot find module 'axios'" "Cannot find module" = true)
  /\ generateSummary sample_key "gemini-1.5-pro"
       (fun _ _ => OtherError "Cannot find module 'axios'") []
     = (["gemini-1.5-pro"],
        inr ("Backend dependency missing. Please run " ++ DQ
             ++ "cd backend && npm install" ++ DQ
             ++ " to install required dependencies.")).
Proof.
  split; [repeat split; reflexivity|].
  apply (generateSummary_missing_module sample_key "gemini-1.5-pro"
           "Cannot find module 'axios'" (fun _ _ => OtherError "Cannot find module 'axios'") []);
    reflexivity.
Defined.

(** The request goes to the v1beta endpoint exactly when the model is
    experimental, and to the v1 endpoint otherwise, in particular for the
    fallback model "gemini-1.5-pro". *)
Theorem apiBaseUrl_experimental (m : string) :
  apiBaseUrl m = (if isExperimentalModel m then v1beta_url else v1_url)
  /\ apiBaseUrl stable_fallback_model = v1_url.
Proof.
  split; [|reflexivity].
  unfold apiBaseUrl, isExperimentalModel. destruct m; reflexivity.
Qed.

Lemma keyFeatures_guard (sec : string) :
  (if negb (truthy sec) then [] else keyFeatureEntries sec) = keyFeatureEntries sec.
Proof. destruct sec; reflexivity. Qed.

(** [extractKeyFeatures] returns no entry when the reply has no
    "## Key Features and Announcements" heading; otherwise its entries
    are read from the text after the first heading, cut at the next such
    heading and then at the first "##". *)
Theorem extractKeyFeatures_section (md : string) :
  (includes md key_features_heading = false -> extractKeyFeatures md = []) /\
  extractKeyFeatures md =
    match after_first key_features_heading md with
    | None => []
    | Some a => keyFeatureEntries (cut_at "##" (cut_at key_features_heading a))
    end.
Proof.
  assert (Hby : extractKeyFeatures md =
    match after_first key_features_heading md with
    | None => []
    | Some a => keyFeatureEntries (cut_at "##" (cut_at key_features_heading a))
    end).
  { unfold extractKeyFeatures, after_first.
    rewrite nth1_split by discriminate.
    rewrite break_at_index by discriminate.
    destruct (index 0 key_features_heading md) as [i|]; [|reflexivity].
    cbn beta iota.
    unfold split. rewrite nth0_split_fuel.
    rewrite !first_piece_cut_at by discriminate.
    apply keyFeatures_guard. }
  split; [|exact Hby].
  intros Habs. rewrite Hby, after_first_absent by exact Habs. reflexivity.
Qed.

End GeminiExtraFacts.

(* ----------------------------------------------------------------- *)
(** ** The visitor-counter endpoints *)

Module CounterEndpointFacts.
Import VisitorCounter VisitorCounterEndpoints.
Open Scope Z_scope.

(** After a committed [POST /api/visitor-counter/increment], a successful
    [GET /api/visitor-counter] answers the same count as the POST, and
    that count is the stored count plus one while it is at most 2^53; a
    failed transaction answers a 500 with "Failed to increment visitor
    counter", and a failed read a 500 with "Failed to get visitor
    counter". *)
Theorem postIncrement_then_get (now : Z) (st : Store) :
  (let '(resp, st') := postIncrement now TxCommit st in
   getCount true st' = resp
   /\ (- 2 ^ 53 <= storedCount st + 1 <= 2 ^ 53 ->
       resp = CountJson (storedCount st + 1)))
  /\ fst (postIncrement now TxAbort st)
     = CounterError500 "Internal Server Error" "Failed to increment visitor counter"
  /\ getCount false st
     = CounterError500 "Internal Server Error" "Failed to get visitor counter".
Proof.
  split; [|split; reflexivity].
  unfold postIncrement, incrementService.
  destruct (incrementCounter now st) as [c st'] eqn:E.
  split.
  - unfold incrementCounter in E. injection E as <- <-. reflexivity.
  - intros H. rewrite VisitorCounterFacts.incrementCounter_exact in E by exact H.
    injection E as <- _. reflexivity.
Qed.

End CounterEndpointFacts.


(* ----------------------------------------------------------------- *)
(** ** [ReleaseNotesController.getReleaseNotes]: errors and the summary *)

Module ControllerExtraFacts.
Import Gemini Controller Samples.

(** When the warehouse query fails, no summary is requested and the
    answer is a 500 carrying the error's message, or "Unknown error
    occurred" for a thrown value that is not an [Error]. *)
Theorem getReleaseNotes_warehouse_error (bq : Warehouse) (gem : Summarizer)
    (q : Query) (e : Thrown) :
  bq (timeframeParam q) (listParam (qTypes q)) (listParam (qProducts q)) = inr e ->
  getReleaseNotes bq gem q
  = ([], Error500 "Internal Server Error" (messageOr e "Unknown error occurred")).
Proof. intros H. unfold getReleaseNotes. rewrite H. reflexivity. Qed.

Lemma getReleaseNotes_warehouse_error_witness :
  (fun (_ : string) (_ _ : list string) => inr (ThrownError "quota exceeded"))
    (timeframeParam sample_query) (listParam (qTypes sample_query))
    (listParam (qProducts sample_query))
  = (inr (ThrownError "quota exceeded") : list ReleaseNote + Thrown)
  /\ getReleaseNotes (fun _ _ _ => inr (ThrownError "quota exceeded"))
       (fun _ => inr ThrownOther) sample_query
     = ([], Error500 "Internal Server Error" "quota exceeded").
Proof.
  split; [reflexivity|].
  apply (getReleaseNotes_warehouse_error (fun _ _ _ => inr (ThrownError "quota exceeded"))
           (fun _ => inr ThrownOther) sample_query (ThrownError "quota exceeded")).
  reflexivity.
Defined.

(** The summarizer is called at most once, and only with the notes the
    warehouse returned, when they are not empty and the [summarize]
    parameter is exactly "true". *)
Theorem getReleaseNotes_summarizer_calls (bq : Warehouse) (gem : Summarizer) (q : Query) :
  fst (getReleaseNotes bq gem q) = []
  \/ exists ns,
       fst (getReleaseNotes bq gem q) = [ns]
       /\ bq (timeframeParam q) (listParam (qTypes q)) (listParam (qProducts q)) = inl ns
       /\ ns <> [] /\ qSummarize q = Some "true".
Proof.
  unfold getReleaseNotes.
  destruct (bq (timeframeParam q) (listParam (qTypes q)) (listParam (qProducts q)))
    as [ns|e] eqn:E; [|left; reflexivity].
  destruct (summarizeParam q && (0 <? List.length ns)%nat) eqn:S;
    [|left; reflexivity].
  apply andb_true_iff in S as [S1 S2].
  right. exists ns.
  assert (Hs : qSummarize q = Some "true").
  { unfold summarizeParam, opt_eqb in S1. destruct (qSummarize q) as [x|]; [|discriminate].
    apply String.eqb_eq in S1. now subst. }
  assert (Hne : ns <> []) by (intros ->; discriminate).
  destruct (gem ns); cbn; auto.
Qed.

(** When the [summarize] parameter is not exactly "true", the notes are
    answered with their filters, no summary and no summary error, and the
    summarizer is not called. *)
Theorem getReleaseNotes_no_summary_requested (bq : Warehouse) (gem : Summarizer)
    (q : Query) (ns : list ReleaseNote) :
  qSummarize q <> Some "true" ->
  bq (timeframeParam q) (listParam (qTypes q)) (listParam (qProducts q)) = inl ns ->
  getReleaseNotes bq gem q
  = ([], Json200 {| notes := ns; filters := requestFilters q;
                    summary := None; summaryError := None |}).
Proof.
  intros Hs Hbq. unfold getReleaseNotes. rewrite Hbq.
  replace (summarizeParam q) with false.
  - reflexivity.
  - unfold summarizeParam, opt_eqb. destruct (qSummarize q) as [x|] eqn:Eq; [|reflexivity].
    destruct (String.eqb x "true") eqn:E; [|reflexivity].
    apply String.eqb_eq in E. subst. congruence.
Qed.

Lemma getReleaseNotes_no_summary_requested_witness :
  (qSummarize {| qTimeframe := None; qTypes := None; qProducts := None;
                 qSummarize := Some "yes" |} <> Some "true"
   /\ (fun (_ : string) (_ _ : list string) => inl [sample_note])
        "7d" [] [] = (inl [sample_note] : list ReleaseNote + Thrown))
  /\ getReleaseNotes (fun _ _ _ => inl [sample_note]) (fun _ => inr ThrownOther)
       {| qTimeframe := None; qTypes := None; qProducts := None; qSummarize := Some "yes" |}
     = ([], Json200 {| notes := [sample_note];
                      filters := requestFilters {| qTimeframe := None; qTypes := None;
                                                   qProducts := None; qSummarize := Some "yes" |};
                      summary := None; summaryError := None |}).
Proof.
  split; [split; [discriminate | reflexivity]|].
  apply (getReleaseNotes_no_summary_requested (fun _ _ _ => inl [sample_note])
           (fun _ => inr ThrownOther)
           {| qTimeframe := None; qTypes := None; qProducts := None; qSummarize := Some "yes" |}
           [sample_note]); [discriminate | reflexivity].
Defined.

(** When [summarize] is "true", the warehouse returns a non-empty list
    and the summarizer succeeds, the answer carries the notes, their
    filters and the summary, with no summary error. *)
Theorem getReleaseNotes_summary_ok (bq : Warehouse) (gem : Summarizer)
    (q : Query) (ns : list ReleaseNote) (s : SummaryResult) :
  qSummarize q = Some "true" -> ns <> [] ->
  bq (timeframeParam q) (listParam (qTypes q)) (listParam (qProducts q)) = inl ns ->
  gem ns = inl s ->
  getReleaseNotes bq gem q
  = ([ns], Json200 {| notes := ns; filters := requestFilters q;
                      summary := Some s; summaryError := None |}).
Proof.
  intros Hs Hne Hbq Hg. unfold getReleaseNotes. rewrite Hbq.
  replace (summarizeParam q) with true by (unfold summarizeParam; rewrite Hs; reflexivity).
  destruct ns as [|n ns']; [congruence|]. simpl andb. cbv iota. rewrite Hg. reflexivity.
Qed.

Lemma getReleaseNotes_summary_ok_witness :
  (qSummarize sample_query = Some "true" /\ [sample_note] <> []
   /\ (fun (_ : string) (_ _ : list string) => inl [sample_note])
        (timeframeParam sample_query) (listParam (qTypes sample_query))
        (listParam (qProducts sample_query))
      = (inl [sample_note] : list ReleaseNote + Thrown)
   /\ (fun (_ : list ReleaseNote) => inl sample_summary) [sample_note]
      = (inl sample_summary : SummaryResult + Thrown))
  /\ getReleaseNotes (fun _ _ _ => inl [sample_note]) (fun _ => inl sample_summary)
       sample_query
     = ([[sample_note]], Json200 {| notes := [sample_note]; filters := requestFilters sample_query;
                                   summary := Some sample_summary; summaryError := None |}).
Proof.
  split; [refine (conj _ (conj _ (conj _ _))); [reflexivity | discriminate | reflexivity | reflexivity]|].
  apply (getReleaseNotes_summary_ok (fun _ _ _ => inl [sample_note])
           (fun _ => inl sample_summary) sample_query [sample_note] sample_summary);
    [reflexivity | discriminate | reflexivity | reflexivity].
Defined.

End ControllerExtraFacts.

(* ----------------------------------------------------------------- *)
(** ** The list parameters of the request *)

Module JoinFacts.
Import JsArray.

Lemma strip_prefix_app_inv (sep s rest : string) :
  strip_prefix sep s = Some rest -> s = sep ++ rest.
Proof.
  revert s. induction sep as [|a sep IH]; intros s H.
  - simpl in H |- *. congruence.
  - destruct s as [|b s]; simpl in H; [discriminate|].
    destruct (Ascii.eqb a b) eqn:E; [|discriminate].
    apply Ascii.eqb_eq in E. subst b. simpl. f_equal. apply IH, H.
Qed.

Lemma break_at_app_inv (sep s before after : string) :
  break_at sep s = Some (before, after) -> s = before ++ sep ++ after.
Proof.
  revert before after. induction s as [|c s IH]; intros before after H;
    rewrite break_at_unfold in H.
  - destruct (strip_prefix sep EmptyString) eqn:E.
    + injection H as <- <-. apply strip_prefix_app_inv in E. exact E.
    + discriminate.
  - destruct (strip_prefix sep (String c s)) eqn:E.
    + injection H as <- <-. apply strip_prefix_app_inv in E. exact E.
    + destruct (break_at sep s) as [[b a]|] eqn:E2; [|discriminate].
      injection H as <- <-. simpl. f_equal. apply IH; reflexivity.
Qed.

Lemma split_fuel_nonempty (n : nat) (sep s : string) :
  exists x xs, split_fuel n sep s = x :: xs.
Proof.
  destruct n as [|n]; [eexists; eexists; reflexivity|].
  rewrite split_fuel_S. destruct (break_at sep s) as [[b a]|];
    eexists; eexists; reflexivity.
Qed.

Lemma join_split_fuel (sep : string) (n : nat) (s : string) :
  join sep (split_fuel n sep s) = s.
Proof.
  revert s. induction n as [|n IH]; intros s; [reflexivity|].
  rewrite split_fuel_S. destruct (break_at sep s) as [[b a]|] eqn:E; [|reflexivity].
  destruct (split_fuel_nonempty n sep a) as [x [xs Hx]].
  change (join sep (b :: split_fuel n sep a) = s).
  rewrite Hx. change (b ++ sep ++ join sep (x :: xs) = s).
  rewrite <- Hx, IH. symmetry. apply break_at_app_inv, E.
Qed.

(** The [types] and [products] parameters are split at every comma with
    nothing dropped: joining the list back with "," gives the parameter
    text (the empty text when the parameter is absent). *)
Theorem listParam_join (p : option string) :
  join "," (Controller.listParam p) = match p with Some s => s | None => "" end.
Proof.
  destruct p as [s|]; [|reflexivity].
  unfold Controller.listParam. destruct s as [|c s]; [reflexivity|].
  simpl truthy. cbv iota. unfold split. apply join_split_fuel.
Qed.

End JoinFacts.

(* ----------------------------------------------------------------- *)
(** ** [BigQueryService]: the date range and the query text *)

Module BigQueryExtraFacts.
Import JsDate ParseInt BigQuery JsDateFacts Decimal DecimalFacts BigQueryFacts.
Open Scope Z_scope.

(** Whatever the timeframe, the end date is the local calendar day of
    [now]. *)
Theorem getDateRange_end_today (tza now : Z) (tf : string) :
  snd (getDateRange tza now tf) = ymdString (civil_from_days (localDay tza now)).
Proof. unfold getDateRange. cbn [snd]. apply formatDate_some. Qed.

(** A timeframe with no number after the first "d" is removed gives the
    start date "NaN-NaN-NaN"; the end date is still the local day of
    [now]. *)
Theorem getDateRange_not_a_number (tza now : Z) (tf : string) :
  parseInt (replaceFirstD tf) = None ->
  getDateRange tza now tf
  = ("NaN-NaN-NaN", ymdString (civil_from_days (localDay tza now))).
Proof.
  intros Hp. unfold getDateRange. rewrite Hp, formatDate_some.
  unfold nsub. destruct (getDate tza (Some now)); reflexivity.
Qed.

Lemma getDateRange_not_a_number_witness :
  parseInt (replaceFirstD "week") = None
  /\ getDateRange 0 1760486400000 "week"
     = ("NaN-NaN-NaN", ymdString (civil_from_days (localDay 0 1760486400000))).
Proof.
  split; [reflexivity|].
  apply getDateRange_not_a_number. reflexivity.
Defined.

Lemma replaceFirstD_digits_only (ds : list Z) :
  Forall is_digit ds -> replaceFirstD (decimalString ds) = decimalString ds.
Proof.
  induction 1 as [|d ds Hd Hds IH]; [reflexivity|].
  cbn [decimalString replaceFirstD]. rewrite (digit_not_d d Hd), IH. reflexivity.
Qed.

(** For a timeframe of decimal digits, the "d" may be left out or written
    before the digits: "30", "d30" and "30d" give the same range. *)
Theorem getDateRange_d_optional (tza now : Z) (ds : list Z) :
  Forall is_digit ds ->
  getDateRange tza now (decimalString ds) = getDateRange tza now (decimalString ds ++ "d")
  /\ getDateRange tza now ("d" ++ decimalString ds)
     = getDateRange tza now (decimalString ds ++ "d").
Proof.
  intros Hall. unfold getDateRange.
  rewrite (replaceFirstD_digits ds Hall), (replaceFirstD_digits_only ds Hall).
  split; reflexivity.
Qed.

Lemma getDateRange_d_optional_witness :
  Forall is_digit [3; 0]
  /\ getDateRange 0 1760486400000 (decimalString [3; 0])
     = getDateRange 0 1760486400000 (decimalString [3; 0] ++ "d")
  /\ getDateRange 0 1760486400000 ("d" ++ decimalString [3; 0])
     = getDateRange 0 1760486400000 (decimalString [3; 0] ++ "d").
Proof.
  assert (H : Forall is_digit [3; 0]) by (repeat constructor; unfold is_digit; lia).
  split; [exact H|]. apply getDateRange_d_optional. exact H.
Defined.

Lemma padStart2_small (k : Z) :
  1 <= k <= 31 -> padStart2 (numberToString (Some k)) = decimalString [k / 10; k mod 10].
Proof.
  intros Hk.
  assert (Hall : all_from (fun k => String.eqb (padStart2 (numberToString (Some k)))
                                              (decimalString [k / 10; k mod 10])) 1 31 = true)
    by (vm_compute; reflexivity).
  apply String.eqb_eq. apply (all_from_spec _ 31 1 Hall). simpl. lia.
Qed.

(** On a valid date, [formatDate] writes the year, then the month (1 to
    12) and the day of the month (1 to 31) each as exactly two decimal
    digits, zero-padded. *)
Theorem formatDate_two_digit_fields (tza t : Z) :
  let '(y, m, d) := civil_from_days (localDay tza t) in
  formatDate tza (Some t) = numberToString (Some y) ++ "-" ++ decimalString [m / 10; m mod 10] ++ "-" ++ decimalString [d / 10; d mod 10]
  /\ 1 <= m <= 12 /\ 1 <= d <= 31.
Proof.
  rewrite formatDate_some.
  pose proof (civil_roundtrip (localDay tza t)) as Hr.
  destruct (civil_from_days (localDay tza t)) as [[y m] d].
  destruct Hr as [_ [Hm Hd]].
  unfold ymdString. rewrite !padStart2_small by lia. auto.
Qed.

(** The query text depends on the [types] and [products] filters only
    through whether each list is empty: their values are passed as query
    parameters and never appear in the text. *)
Theorem releaseNotesQuery_values_unused (dataset table : string)
    (types types' products products' : list string) :
  (types = [] <-> types' = []) -> (products = [] <-> products' = []) ->
  releaseNotesQuery dataset table types products
  = releaseNotesQuery dataset table types' products'.
Proof.
  intros Ht Hp. unfold releaseNotesQuery.
  replace (typesClause types') with (typesClause types).
  - replace (productsClause products') with (productsClause products); [reflexivity|].
    destruct products, products'; try reflexivity; exfalso; destruct Hp as [H1 H2];
      [specialize (H1 eq_refl) | specialize (H2 eq_refl)]; discriminate.
  - destruct types, types'; try reflexivity; exfalso; destruct Ht as [H1 H2];
      [specialize (H1 eq_refl) | specialize (H2 eq_refl)]; discriminate.
Qed.

Lemma releaseNotesQuery_values_unused_witness :
  ((["FEATURE"] = [] <-> ["ISSUE"; "x' OR 1=1 --"] = []) /\ (([] : list string) = [] <-> ([] : list string) = []))
  /\ releaseNotesQuery "google_cloud_release_notes" "release_notes" ["FEATURE"] []
     = releaseNotesQuery "google_cloud_release_notes" "release_notes" ["ISSUE"; "x' OR 1=1 --"] [].
Proof.
  split; [split; split; intros H; discriminate H || reflexivity|].
  apply releaseNotesQuery_values_unused; split; intros H; discriminate H || reflexivity.
Defined.

End BigQueryExtraFacts.

(* ----------------------------------------------------------------- *)
(** ** The HTTPS redirect and the catch-all route *)

Module ServerFacts.
Import Server.

(** The first middleware redirects exactly the requests whose
    [x-forwarded-proto] header is "http" and whose path is neither
    "/health" nor under "/api/", and the redirect always goes to an
    "https://" address. *)
Theorem httpsRedirect_when (forwardedProto host : option string) (path url : string) :
  (httpsRedirect forwardedProto host path url <> None
   <-> forwardedProto = Some "http" /\ path <> "/health" /\ startsWith path "/api/" = false)
  /\ (forall loc, httpsRedirect forwardedProto host path url = Some loc ->
      startsWith loc "https://" = true).
Proof.
  unfold httpsRedirect, Gemini.opt_eqb. split.
  - destruct forwardedProto as [p|];
      [|split; [intros H; now elim H | intros [H _]; discriminate]].
    destruct (String.eqb_spec p "http") as [->|Hp]; cbn [andb];
      [|split; [intros H; now elim H | intros [H _]; congruence]].
    destruct (String.eqb_spec path "/health") as [->|Hh]; cbn [negb andb].
    + split; [intros H; now elim H | intros [_ [H _]]; now elim H].
    + destruct (startsWith path "/api/"); cbn [negb].
      * split; [intros H; now elim H | intros [_ [_ H]]; discriminate].
      * split; [auto | intros _; discriminate].
  - intros loc. destruct (_ && _ && _); [|discriminate].
    intros H. injection H as <-. exact (prefix_app "https://" (interp host ++ url)).
Qed.

(** A path that reaches the catch-all route is answered with the JSON 404
    exactly when it is under "/api/", "/static-file-test/" or "/assets/",
    or is "/health", "/debug" or "/test"; a redirect always goes to
    "/static-test" and happens only when [index.html] is missing or
    cannot be read. *)
Theorem catchAll_answers (path : string) (indexExists readOk sendOk : bool) :
  (answer sendOk (catchAll path indexExists readOk) = NotFoundJson "Not Found"
   <-> (startsWith path "/api/" || String.eqb path "/health"
        || String.eqb path "/debug" || String.eqb path "/test"
        || startsWith path "/static-file-test/" || startsWith path "/assets/") = true)
  /\ (forall l, answer sendOk (catchAll path indexExists readOk) = Redirect l ->
      l = "/static-test" /\ indexExists && readOk = false).
Proof.
  unfold catchAll.
  destruct (startsWith path "/api/" || String.eqb path "/health"
        || String.eqb path "/debug" || String.eqb path "/test"
        || startsWith path "/static-file-test/" || startsWith path "/assets/");
    [split; [tauto | discriminate]|].
  destruct (String.eqb path "/static-test");
    [split; [split; discriminate | discriminate]|].
  destruct indexExists, readOk, sendOk; cbn;
    (split; [split; discriminate | intros l H; try discriminate H]);
    injection H as <-; auto.
Qed.

End ServerFacts.
